(** * The chat-intent function of the clinic helper application

    A shallow embedding of the edge function that classifies a patient's
    free-text message ([detectIntent]), renders the reply
    ([generateResponse]) and wraps both in the HTTP boundary ([serve]); of
    its caller, [handleSend] of the chat page; and of the schema behind
    them: [has_role], the signup trigger and the row policies, with
    [checkAdminAccess] of the admin page.  The properties follow the
    definitions: first those the specification states, then others the
    code shows.

    JavaScript strings are sequences of UTF-16 code units; they are modelled
    as [list N].  Regular expressions are modelled by a small syntax tree
    with the constructs the source patterns use and a matcher that computes
    the set of end positions of a match. *)

From Stdlib Require Import Strings.String Strings.Ascii.
From Stdlib Require Import Numbers.DecimalString.
From Stdlib Require Import Floats.SpecFloat.
From Stdlib Require Import NArith ZArith Bool Arith Lia List.
Import ListNotations.

Set Implicit Arguments.

(* ================================================================= *)
(** ** JavaScript strings *)

Definition jsstring := list N.

Definition jsstring_eqb (a b : jsstring) : bool :=
  if list_eq_dec N.eq_dec a b then true else false.

(** [js] reads a string literal the way the engine reads it in the source
    file: the file is UTF-8, the escape [\n] is a line feed, and the value
    is a sequence of UTF-16 code units. *)

Definition bytes_of (s : string) : list N :=
  map N_of_ascii (list_ascii_of_string s).

Fixpoint unescape (bs : list N) : list N :=
  match bs with
  | [] => []
  | b :: r =>
      if N.eqb b 92 then
        match r with
        | [] => []
        | c :: r' => (if N.eqb c 110 then 10%N else c) :: unescape r'
        end
      else b :: unescape r
  end.

Definition cont (b : N) : N := N.land b 63.

Fixpoint utf8_decode (bs : list N) : list N :=
  match bs with
  | [] => []
  | b :: r =>
      if N.ltb b 128 then b :: utf8_decode r
      else if N.ltb b 224 then
        match r with
        | b1 :: r1 => (N.land b 31 * 64 + cont b1)%N :: utf8_decode r1
        | _ => []
        end
      else if N.ltb b 240 then
        match r with
        | b1 :: b2 :: r2 =>
            (N.land b 15 * 4096 + cont b1 * 64 + cont b2)%N :: utf8_decode r2
        | _ => []
        end
      else
        match r with
        | b1 :: b2 :: b3 :: r3 =>
            (N.land b 7 * 262144 + cont b1 * 4096 + cont b2 * 64 + cont b3)%N
              :: utf8_decode r3
        | _ => []
        end
  end.

Definition utf16_units (cp : N) : list N :=
  if N.ltb cp 65536 then [cp]
  else let c := (cp - 65536)%N in
       [(55296 + c / 1024)%N; (56320 + c mod 1024)%N].

Definition js (s : string) : jsstring :=
  flat_map utf16_units (utf8_decode (unescape (bytes_of s))).

(** Template-literal conversion of an integer: [`${n}`]. *)
Definition numToString (z : Z) : jsstring :=
  js (NilZero.string_of_int (Z.to_int z)).

(** [Array.prototype.join]. *)
Fixpoint join (sep : jsstring) (l : list jsstring) : jsstring :=
  match l with
  | [] => []
  | [x] => x
  | x :: r => x ++ sep ++ join sep r
  end.

Fixpoint startsWith (s p : jsstring) {struct p} : bool :=
  match p, s with
  | [], _ => true
  | _ :: _, [] => false
  | c :: p', d :: s' => N.eqb c d && startsWith s' p'
  end.

(** [String.prototype.includes]: some position of [s] starts with [p]. *)
Definition includes (s p : jsstring) : bool :=
  existsb (fun i => startsWith (skipn i s) p) (seq 0 (S (length s))).

Definition isAscii (s : jsstring) : bool := forallb (fun c => N.ltb c 128) s.

Definition lowerUnit (c : N) : N :=
  if N.leb 65 c && N.leb c 90 then (c + 32)%N else c.

Definition asciiLower (s : jsstring) : jsstring := map lowerUnit s.

(** What the catch clause observes of a thrown value: [error?.message]. *)
Record Thrown := { thrown_message : option jsstring }.

(** The parts of the JavaScript engine the function relies on.
    [String.prototype.toLowerCase] follows the Unicode tables, which are not
    reproduced; on text that is all ASCII it lowers [A-Z] and leaves the
    rest.  The two errors are the TypeErrors the engine raises when a
    property of [null] is destructured and when an undefined member is
    called. *)
Class JsEngine := {
  toLowerCase : jsstring -> jsstring;
  toLowerCase_ascii :
    forall s, isAscii s = true -> toLowerCase s = asciiLower s;
  nullDestructureError : Thrown;
  notAFunctionError : Thrown
}.

(* ================================================================= *)
(** ** Regular expressions *)

(** The constructs of the source patterns, all under the flag [i] and
    without the flag [u]. *)
Inductive regex : Type :=
| Eps                    (* the empty pattern *)
| Chr (c : N)            (* a pattern character *)
| Any                    (* .  *)
| WordB                  (* \b *)
| Cat (r1 r2 : regex)    (* r1r2 *)
| Alt (r1 r2 : regex)    (* r1|r2 *)
| Opt (r : regex)        (* r? *)
| Star (r : regex).      (* r* *)

(** Canonicalize of the flag [i] without [u]: a code unit is compared by
    its upper-case form, and a non-ASCII unit never canonicalizes to an
    ASCII one.  Every pattern character of the source is ASCII, so it is
    enough to fold ASCII letters. *)
Definition canonicalize (c : N) : N :=
  if N.leb 97 c && N.leb c 122 then (c - 32)%N else c.

(** LineTerminator: LF, CR, LS, PS. *)
Definition isLineTerminator (c : N) : bool :=
  N.eqb c 10 || N.eqb c 13 || N.eqb c 8232 || N.eqb c 8233.

(** The basic word characters [A-Za-z0-9_]. *)
Definition isWordUnit (c : N) : bool :=
  (N.leb 97 c && N.leb c 122) || (N.leb 65 c && N.leb c 90)
  || (N.leb 48 c && N.leb c 57) || N.eqb c 95.

(** IsWordChar(e): false outside the input. *)
Definition isWordChar (s : jsstring) (e : nat) : bool :=
  match nth_error s e with
  | Some c => isWordUnit c
  | None => false
  end.

Definition isWordCharBefore (s : jsstring) (e : nat) : bool :=
  match e with
  | O => false
  | S k => isWordChar s k
  end.

(** Zero or more iterations of [step]; an iteration that consumes nothing
    is rejected, so [length s] iterations are enough from any position. *)
Fixpoint star_ends (step : nat -> list nat) (fuel : nat) (i : nat)
  : list nat :=
  match fuel with
  | O => [i]
  | S f =>
      flat_map (star_ends step f) (filter (fun k => Nat.ltb i k) (step i))
        ++ [i]
  end.

(** [ends r s i]: the end positions of the matches of [r] in [s] that
    start at [i], in the order the backtracking matcher tries them. *)
Fixpoint ends (r : regex) (s : jsstring) (i : nat) : list nat :=
  match r with
  | Eps => [i]
  | Chr c =>
      match nth_error s i with
      | Some d => if N.eqb (canonicalize d) (canonicalize c)
                  then [S i] else []
      | None => []
      end
  | Any =>
      match nth_error s i with
      | Some d => if isLineTerminator d then [] else [S i]
      | None => []
      end
  | WordB =>
      if xorb (isWordCharBefore s i) (isWordChar s i) then [i] else []
  | Cat r1 r2 => flat_map (ends r2 s) (ends r1 s i)
  | Alt r1 r2 => ends r1 s i ++ ends r2 s i
  | Opt r1 => ends r1 s i ++ [i]
  | Star r1 => star_ends (ends r1 s) (length s) i
  end.

(** [RegExp.prototype.test] of a pattern without [g] or [y]: a match may
    start at any index from 0 to the length of the input. *)
Definition test (r : regex) (s : jsstring) : bool :=
  existsb (fun i => match ends r s i with [] => false | _ => true end)
          (seq 0 (S (length s))).

(** A literal run of pattern characters. *)
Fixpoint chars (w : jsstring) : regex :=
  match w with
  | [] => Eps
  | c :: w' => Cat (Chr c) (chars w')
  end.

Definition lit (w : string) : regex := chars (js w).

Fixpoint alts (r : regex) (rs : list regex) : regex :=
  match rs with
  | [] => r
  | r' :: rs' => Alt r (alts r' rs')
  end.

(** [\b(w1|w2|...)\b] *)
Definition wholeWord (r : regex) (rs : list regex) : regex :=
  Cat WordB (Cat (alts r rs) WordB).

(** [x?] after a literal, as in [doctors?]. *)
Definition optS (w : string) : regex := Cat (lit w) (Opt (Chr 115)).

(* ================================================================= *)
(** ** Intent detection *)

(** Intent detection patterns *)
Module intentPatterns.

Definition greeting : regex :=
  wholeWord (lit "hi")
    [lit "hello"; lit "hey"; lit "good morning"; lit "good afternoon";
     lit "good evening"].

Definition book_appointment : regex :=
  Cat (wholeWord (lit "book")
         [lit "schedule"; lit "appointment"; lit "visit"; lit "reserve";
          lit "slot"; lit "make"])
      (Cat (Star Any)
           (wholeWord (lit "appointment") [lit "doctor"; lit "visit"])).

Definition doctor_search : regex :=
  wholeWord (lit "find")
    [lit "search"; lit "show"; lit "list"; lit "which"; optS "doctor";
     lit "cardiologist"; lit "orthopedist"; lit "pediatrician";
     lit "neurologist"; lit "surgeon"; lit "specialist"].

Definition faq_hours : regex :=
  wholeWord (optS "visiting hour")
    [optS "opening hour"; optS "timing"; lit "open"; lit "close";
     lit "when"; lit "hours"].

Definition symptom_triage : regex :=
  wholeWord (lit "chest pain")
    [lit "sweating"; lit "dizzy"; lit "faint"; lit "fever"; lit "swollen";
     lit "bleeding"; lit "cough"; lit "blood"; lit "breath";
     lit "abdominal pain"; lit "symptom"].

Definition cancel_appointment : regex :=
  Cat (wholeWord (lit "cancel") [lit "remove"])
      (Cat (Star Any) (wholeWord (lit "appointment") [lit "booking"])).

Definition emergency : regex :=
  wholeWord (lit "emergency")
    [lit "urgent"; lit "911"; lit "ambulance"; lit "critical"].

End intentPatterns.

(** Emergency symptoms that require immediate attention *)
Definition emergencySymptoms : list jsstring :=
  [js "chest pain"; js "difficulty breathing"; js "shortness of breath";
   js "coughing blood"; js "severe bleeding"; js "severe abdominal pain";
   js "unconscious"; js "stroke"; js "heart attack"].

(** [emergencySymptoms.some(symptom => text.includes(symptom))] *)
Definition someEmergencySymptom (text : jsstring) : bool :=
  existsb (fun symptom => includes text symptom) emergencySymptoms.

Section Classifier.

Context {E : JsEngine}.

Definition detectIntent (message : jsstring) : jsstring :=
  let lowerMessage := toLowerCase message in
  (* Check for emergency first *)
  if someEmergencySymptom lowerMessage
     || test intentPatterns.emergency lowerMessage
  then js "emergency"
  else if test intentPatterns.greeting lowerMessage then js "greeting"
  else if test intentPatterns.book_appointment lowerMessage
  then js "book_appointment"
  else if test intentPatterns.doctor_search lowerMessage
  then js "doctor_search"
  else if test intentPatterns.faq_hours lowerMessage then js "faq_hours"
  else if test intentPatterns.symptom_triage lowerMessage
  then js "symptom_triage"
  else if test intentPatterns.cancel_appointment lowerMessage
  then js "cancel_appointment"
  else js "fallback".

End Classifier.

(** An engine whose [toLowerCase] folds ASCII only; it serves to run the
    definitions on ASCII text. *)
Definition asciiEngine : JsEngine := {|
  toLowerCase := asciiLower;
  toLowerCase_ascii := fun s _ => eq_refl;
  nullDestructureError :=
    {| thrown_message := Some (js "Cannot destructure property 'message' of null") |};
  notAFunctionError :=
    {| thrown_message := Some (js "message.toLowerCase is not a function") |}
|}.

(* ================================================================= *)
(** ** The doctor directory and the effects of a request *)

(** A row of the table [public.doctors]. *)
Record Doctor := {
  name : jsstring;
  specialty : jsstring;
  days : list jsstring;
  start_hour : Z;
  end_hour : Z
}.

(** A query as the client's builder accumulates it. *)
Record Query := {
  q_from : jsstring;
  q_select : option jsstring;
  q_order : option jsstring;
  q_ilike : option (jsstring * jsstring)
}.

Definition from (table : jsstring) : Query :=
  {| q_from := table; q_select := None; q_order := None; q_ilike := None |}.

Definition select (columns : jsstring) (q : Query) : Query :=
  {| q_from := q_from q; q_select := Some columns;
     q_order := q_order q; q_ilike := q_ilike q |}.

Definition order (column : jsstring) (q : Query) : Query :=
  {| q_from := q_from q; q_select := q_select q;
     q_order := Some column; q_ilike := q_ilike q |}.

Definition ilike (column pattern : jsstring) (q : Query) : Query :=
  {| q_from := q_from q; q_select := q_select q;
     q_order := q_order q; q_ilike := Some (column, pattern) |}.

(** A computation returns or throws. *)
Inductive Exc (A : Type) : Type :=
| Ok (a : A)
| Throw (e : Thrown).

Arguments Ok {A} a.
Arguments Throw {A} e.

(** The client answers an awaited query with [{ data }], where [data] is
    [null] when the directory reports an error, or it rejects. *)
Definition Client := Query -> Exc (option (list Doctor)).

(** What a request does to the outside, in the order it does it. *)
Inductive Event : Type :=
| EvCreateClient
| EvQuery (q : Query)
| EvLog (line : jsstring)
| EvError (e : Thrown).

(** Computations that may throw and that append to the trace of events. *)
Definition M (A : Type) : Type := list Event -> Exc A * list Event.

Definition ret {A} (a : A) : M A := fun t => (Ok a, t).

Definition throw {A} (e : Thrown) : M A := fun t => (Throw e, t).

Definition bind {A B} (m : M A) (k : A -> M B) : M B :=
  fun t =>
    match m t with
    | (Ok a, t') => k a t'
    | (Throw e, t') => (Throw e, t')
    end.

Definition emit (e : Event) : M unit := fun t => (Ok tt, t ++ [e]).

Definition liftExc {A} (x : Exc A) : M A := fun t => (x, t).

Notation "x <- m ;; k" := (bind m (fun x => k))
  (at level 61, m at next level, right associativity).
Notation "m ;;; k" := (bind m (fun _ => k))
  (at level 61, right associativity).

(** [await query] *)
Definition await (supabaseClient : Client) (q : Query)
  : M (option (list Doctor)) :=
  emit (EvQuery q) ;;; liftExc (supabaseClient q).

(** [Array.prototype.forEach] with a callback that updates one variable. *)
Fixpoint forEach {A St : Type} (f : St -> A -> nat -> St) (l : list A)
  (idx : nat) (acc : St) : St :=
  match l with
  | [] => acc
  | x :: r => forEach f r (S idx) (f acc x idx)
  end.

(* ================================================================= *)
(** ** Response generation *)

Definition greetingText : jsstring :=
  js "Hello! I'm your HospitalCare assistant. I can help you with:\n\n" ++
  js "• Booking appointments with doctors\n" ++
  js "• Finding specialists by specialty\n" ++
  js "• Visiting hours and hospital information\n" ++
  js "• Basic health questions\n\n" ++
  js "How can I assist you today?".

Definition noDoctorsText : jsstring :=
  js "I can help you book an appointment. However, there are no doctors available at the moment. Please try again later.".

Definition bookHeader : jsstring :=
  js "I can help you book an appointment! Here are our available doctors:\n\n".

Definition bookPrompt : jsstring :=
  js "Please specify which doctor you'd like to see, or let me know your preferred specialty and I'll help you find the right doctor.".

(** The three lines the [book_appointment] loop appends for one doctor. *)
Definition bookStep (response : jsstring) (doc : Doctor) (idx : nat)
  : jsstring :=
  let response :=
    response ++ numToString (Z.of_nat idx + 1) ++ js ". Dr. " ++ name doc
      ++ js " - " ++ specialty doc ++ js "\n" in
  let response :=
    response ++ js "   Available: " ++ join (js ", ") (days doc) ++ js "\n" in
  response ++ js "   Hours: " ++ numToString (start_hour doc) ++ js ":00 - "
    ++ numToString (end_hour doc) ++ js ":00\n\n".

Definition notFoundText : jsstring :=
  js "I couldn't find any doctors matching your criteria. Could you please specify the specialty you're looking for? " ++
  js "We have specialists in Cardiology, Orthopedics, Pediatrics, Neurology, and General Medicine.".

Definition searchPrompt : jsstring :=
  js "Would you like to book an appointment with any of these doctors?".

(** The three lines the [doctor_search] loop appends for one doctor. *)
Definition searchStep (searchResponse : jsstring) (doc : Doctor) (_ : nat)
  : jsstring :=
  let searchResponse :=
    searchResponse ++ js "• Dr. " ++ name doc ++ js " - " ++ specialty doc
      ++ js "\n" in
  let searchResponse :=
    searchResponse ++ js "  Available: " ++ join (js ", ") (days doc)
      ++ js "\n" in
  searchResponse ++ js "  Hours: " ++ numToString (start_hour doc)
    ++ js ":00 - " ++ numToString (end_hour doc) ++ js ":00\n\n".

Definition hoursText : jsstring :=
  js "🏥 **Hospital Visiting Hours**\n\n" ++
  js "• General Visiting: 10:00 AM - 8:00 PM\n" ++
  js "• ICU Visiting: 4:00 PM - 5:00 PM\n" ++
  js "• Emergency: Open 24/7\n\n" ++
  js "**Clinic Hours by Department:**\n" ++
  js "• Outpatient Clinics: Monday-Saturday, 8:00 AM - 8:00 PM\n" ++
  js "• Diagnostic Services: Monday-Saturday, 7:00 AM - 9:00 PM\n" ++
  js "• Pharmacy: Open 24/7\n\n" ++
  js "Is there anything specific you'd like to know?".

Definition emergencyAlertText : jsstring :=
  js "⚠️ **EMERGENCY ALERT** ⚠️\n\n" ++
  js "Based on your symptoms, you need immediate medical attention!\n\n" ++
  js "**Call Emergency Services (911) immediately** or go to the nearest Emergency Room.\n\n" ++
  js "🚨 Emergency Contact: 911\n" ++
  js "🏥 Hospital Emergency: +1-555-HOSPITAL\n\n" ++
  js "Do not wait - seek help now!".

Definition triageText : jsstring :=
  js "I understand you're experiencing symptoms. While I can provide general information, " ++
  js "I'm not qualified to diagnose medical conditions.\n\n" ++
  js "**For proper medical advice:**\n" ++
  js "• If symptoms are severe or worsening → Call 911 or visit Emergency\n" ++
  js "• For non-urgent concerns → I can help you book an appointment with a doctor\n" ++
  js "• For general health questions → I'm here to help with information\n\n" ++
  js "Would you like me to help you book an appointment with a doctor?".

Definition cancelText : jsstring :=
  js "I can help you cancel your appointment. To proceed, please provide:\n\n" ++
  js "• Your appointment reference ID, or\n" ++
  js "• The date and doctor name of your appointment\n\n" ++
  js "Note: You can also view and manage your appointments through your patient portal.".

Definition emergencyText : jsstring :=
  js "🚨 **EMERGENCY RESPONSE** 🚨\n\n" ++
  js "If this is a life-threatening emergency:\n\n" ++
  js "**CALL 911 IMMEDIATELY**\n\n" ++
  js "🏥 Hospital Emergency Room: Open 24/7\n" ++
  js "📞 Emergency Hotline: +1-555-HOSPITAL\n" ++
  js "📍 Address: 123 Medical Center Drive\n\n" ++
  js "For urgent but non-life-threatening issues, our emergency department is always open. " ++
  js "Do not wait if you believe your condition is serious!".

Definition defaultText : jsstring :=
  js "I'm not sure I understand. I can help you with:\n\n" ++
  js "• **Book an appointment** - Schedule a visit with our doctors\n" ++
  js "• **Find a doctor** - Search by specialty\n" ++
  js "• **Visiting hours** - Get hospital timing information\n" ++
  js "• **Health questions** - General medical information\n" ++
  js "• **Emergency help** - Urgent medical assistance\n\n" ++
  js "What would you like help with?".

Section Generator.

Context {E : JsEngine}.

(** The keyword chain of the [doctor_search] case; the empty string when
    no keyword occurs. *)
Definition searchSpecialty (message : jsstring) : jsstring :=
  let lowerMsg := toLowerCase message in
  if includes lowerMsg (js "cardio") then js "Cardiology"
  else if includes lowerMsg (js "ortho") then js "Orthopedics"
  else if includes lowerMsg (js "pediat") then js "Pediatrics"
  else if includes lowerMsg (js "neuro") then js "Neurology"
  else if includes lowerMsg (js "general") then js "General Medicine"
  else [].

(** The query of the [doctor_search] case. *)
Definition searchQuery (specialty : jsstring) : Query :=
  let query := select (js "*") (from (js "doctors")) in
  match specialty with
  | [] => query
  | _ :: _ => ilike (js "specialty") (js "%" ++ specialty ++ js "%") query
  end.

Definition generateResponse (intent message : jsstring)
  (supabaseClient : Client) : M jsstring :=
  if jsstring_eqb intent (js "greeting") then ret greetingText
  else if jsstring_eqb intent (js "book_appointment") then
    (* Get doctors list *)
    doctors <- await supabaseClient
                 (order (js "name") (select (js "*") (from (js "doctors")))) ;;
    match doctors with
    | None | Some [] => ret noDoctorsText
    | Some doctors =>
        let response := bookHeader in
        let response := forEach bookStep doctors 0 response in
        let response := response ++ bookPrompt in
        ret response
    end
  else if jsstring_eqb intent (js "doctor_search") then
    let specialty := searchSpecialty message in
    let query := searchQuery specialty in
    searchDoctors <- await supabaseClient query ;;
    match searchDoctors with
    | None | Some [] => ret notFoundText
    | Some searchDoctors =>
        let searchResponse :=
          match specialty with
          | _ :: _ => js "Here are our " ++ specialty ++ js " specialists:\n\n"
          | [] => js "Here are our available doctors:\n\n"
          end in
        let searchResponse :=
          forEach searchStep searchDoctors 0 searchResponse in
        let searchResponse := searchResponse ++ searchPrompt in
        ret searchResponse
    end
  else if jsstring_eqb intent (js "faq_hours") then ret hoursText
  else if jsstring_eqb intent (js "symptom_triage") then
    let emergencyCheck := someEmergencySymptom (toLowerCase message) in
    if emergencyCheck then ret emergencyAlertText
    else ret triageText
  else if jsstring_eqb intent (js "cancel_appointment") then ret cancelText
  else if jsstring_eqb intent (js "emergency") then ret emergencyText
  else ret defaultText.

End Generator.

(* ================================================================= *)
(** ** The request boundary *)

(** A parsed JSON value; a number is the double it denotes. *)
#[local] Unset Elimination Schemes.
Inductive Json : Type :=
| JNull
| JBool (b : bool)
| JNum (x : spec_float)
| JStr (s : jsstring)
| JArr (l : list Json)
| JObj (l : list (jsstring * Json)).
#[local] Set Elimination Schemes.

(** A request: its method and what [await req.json()] gives. *)
Record Request := {
  method : jsstring;
  json : Exc Json
}.

(** A response: the status, the headers and the value that is serialized
    into the body ([None] for the [null] body). *)
Record Response := {
  status : N;
  headers : list (jsstring * jsstring);
  body : option Json
}.

(** What the deployment gives to a request: [createClient] on the
    configured URL and key returns a client or throws. *)
Record World := {
  createClient : Exc Client
}.

Definition corsHeaders : list (jsstring * jsstring) :=
  [(js "Access-Control-Allow-Origin", js "*");
   (js "Access-Control-Allow-Headers",
    js "authorization, x-client-info, apikey, content-type")].

Definition jsonHeaders : list (jsstring * jsstring) :=
  corsHeaders ++ [(js "Content-Type", js "application/json")].

(** Own property [key] of an object literal read by [JSON.parse]: of
    duplicate keys the last one stands. *)
Fixpoint getProperty (key : jsstring) (l : list (jsstring * Json))
  : option Json :=
  match l with
  | [] => None
  | (k, v) :: r =>
      match getProperty key r with
      | Some v' => Some v'
      | None => if jsstring_eqb k key then Some v else None
      end
  end.

(** ToBoolean; [None] is [undefined]. *)
Definition truthy (v : option Json) : bool :=
  match v with
  | None => false
  | Some JNull => false
  | Some (JBool b) => b
  | Some (JNum x) =>
      match x with
      | S754_zero _ => false
      | S754_nan => false
      | _ => true
      end
  | Some (JStr s) => match s with [] => false | _ :: _ => true end
  | Some (JArr _) => true
  | Some (JObj _) => true
  end.

Section Boundary.

Context {E : JsEngine}.

(** [v.message]: a value without the property gives [undefined]. *)
Definition messageField (v : Json) : option Json :=
  match v with
  | JObj l => getProperty (js "message") l
  | _ => None
  end.

(** [const { message } = v]: [null] cannot be destructured. *)
Definition destructureMessage (v : Json) : M (option Json) :=
  match v with
  | JNull => throw nullDestructureError
  | _ => ret (messageField v)
  end.

(** [detectIntent(message)] on the received value: only a string has
    [toLowerCase]. *)
Definition callDetectIntent (message : option Json) : M jsstring :=
  match message with
  | Some (JStr s) => ret (detectIntent s)
  | _ => throw notAFunctionError
  end.

Definition messageText (message : option Json) : jsstring :=
  match message with
  | Some (JStr s) => s
  | _ => []
  end.

Definition badRequest : Response :=
  {| status := 400;
     headers := jsonHeaders;
     body := Some (JObj [(js "error", JStr (js "Message is required"))]) |}.

(** The body of the [try] block. *)
Definition tryBlock (w : World) (req : Request) : M Response :=
  v <- liftExc (json req) ;;
  message <- destructureMessage v ;;
  if negb (truthy message) then ret badRequest
  else
    (* Create Supabase client *)
    supabaseClient <- (emit EvCreateClient ;;; liftExc (createClient w)) ;;
    (* Detect intent *)
    intent <- callDetectIntent message ;;
    emit (EvLog (js "Detected intent: " ++ intent ++ js " for message: "
                   ++ messageText message)) ;;;
    (* Generate response *)
    response <- generateResponse intent (messageText message)
                  supabaseClient ;;
    ret {| status := 200;
           headers := jsonHeaders;
           body := Some (JObj [(js "intent", JStr intent);
                               (js "response", JStr response)]) |}.

(** [error?.message || "An unexpected error occurred"] *)
Definition errorMessage (error : Thrown) : jsstring :=
  match thrown_message error with
  | Some (c :: m) => c :: m
  | _ => js "An unexpected error occurred"
  end.

(** The [catch] block. *)
Definition catchBlock (error : Thrown) : Response :=
  {| status := 500;
     headers := jsonHeaders;
     body := Some (JObj
       [(js "error", JStr (errorMessage error));
        (js "intent", JStr (js "error"));
        (js "response",
         JStr (js "I'm sorry, I encountered an error processing your request. Please try again."))]) |}.

Definition serve (w : World) (req : Request) : Response * list Event :=
  if jsstring_eqb (method req) (js "OPTIONS") then
    ({| status := 200; headers := corsHeaders; body := None |}, [])
  else
    match tryBlock w req [] with
    | (Ok response, t) => (response, t)
    | (Throw error, t) => (catchBlock error, t ++ [EvError error])
    end.

End Boundary.

(* ================================================================= *)
(** ** A reference directory

    The directory is a Postgres table behind the client.  The model
    covers what the two queries of the source ask of it: [ILIKE] on a text
    column and ordering by a column.  The collation of the ordering is the
    database's; it is a parameter. *)

(** [s ILIKE p]: [%] (and the client's alias [*]) stands for any run of
    characters, [_] for one character, a backslash quotes the next
    character, and letters compare without case. *)
Fixpoint like (p s : jsstring) {struct p} : bool :=
  match p with
  | [] => match s with [] => true | _ :: _ => false end
  | c :: p' =>
      if N.eqb c 37 || N.eqb c 42 then
        existsb (fun k => like p' (skipn k s)) (seq 0 (S (length s)))
      else if N.eqb c 95 then
        match s with [] => false | _ :: s' => like p' s' end
      else if N.eqb c 92 then
        match p' with
        | [] => false
        | c' :: p'' =>
            match s with
            | [] => false
            | d :: s' => N.eqb (lowerUnit c') (lowerUnit d) && like p'' s'
            end
        end
      else
        match s with
        | [] => false
        | d :: s' => N.eqb (lowerUnit c) (lowerUnit d) && like p' s'
        end
  end.

Definition textColumn (column : jsstring) (d : Doctor) : option jsstring :=
  if jsstring_eqb column (js "name") then Some (name d)
  else if jsstring_eqb column (js "specialty") then Some (specialty d)
  else None.

Definition knownColumn (column : jsstring) : bool :=
  jsstring_eqb column (js "name") || jsstring_eqb column (js "specialty").

Definition rowMatches (column pattern : jsstring) (d : Doctor) : bool :=
  match textColumn column d with
  | Some v => like pattern v
  | None => false
  end.

(** The client of a directory that holds [table]; a query it cannot answer
    gives [data: null]. *)
Definition directoryClient
  (orderBy : jsstring -> list Doctor -> list Doctor) (table : list Doctor)
  : Client :=
  fun q =>
    if negb (jsstring_eqb (q_from q) (js "doctors")) then Ok None
    else
      let filtered :=
        match q_ilike q with
        | None => Some table
        | Some (column, pattern) =>
            if knownColumn column
            then Some (filter (rowMatches column pattern) table)
            else None
        end in
      match filtered, q_order q with
      | None, _ => Ok None
      | Some rows, None => Ok (Some rows)
      | Some rows, Some column => Ok (Some (orderBy column rows))
      end.

(* ================================================================= *)
(** ** The vocabulary of the specification *)

(** The closed set of labels. *)
Definition intentLabels : list jsstring :=
  [js "greeting"; js "book_appointment"; js "doctor_search"; js "faq_hours";
   js "symptom_triage"; js "cancel_appointment"; js "emergency";
   js "fallback"].

(** The labels [generateResponse] has a case for. *)
Definition handledIntents : list jsstring :=
  [js "greeting"; js "book_appointment"; js "doctor_search"; js "faq_hours";
   js "symptom_triage"; js "cancel_appointment"; js "emergency"].

(** The patterns in the order the specification lists them. *)
Definition orderedPatterns : list (jsstring * regex) :=
  [(js "greeting", intentPatterns.greeting);
   (js "book_appointment", intentPatterns.book_appointment);
   (js "doctor_search", intentPatterns.doctor_search);
   (js "faq_hours", intentPatterns.faq_hours);
   (js "symptom_triage", intentPatterns.symptom_triage);
   (js "cancel_appointment", intentPatterns.cancel_appointment)].

(** The label of the first pattern that matches, [fallback] when none
    does. *)
Fixpoint firstMatch (ps : list (jsstring * regex)) (text : jsstring)
  : jsstring :=
  match ps with
  | [] => js "fallback"
  | (label, r) :: ps' => if test r text then label else firstMatch ps' text
  end.

(** [p] is a literal substring of [s]. *)
Definition occursIn (p s : jsstring) : Prop :=
  exists pre post, s = pre ++ p ++ post.

Definition startsWithWordUnit (w : jsstring) : bool := isWordUnit (hd 0%N w).

Definition endsWithWordUnit (w : jsstring) : bool := isWordUnit (last w 0%N).

(** A word that starts and ends with a word character. *)
Definition wordy (w : jsstring) : bool :=
  startsWithWordUnit w && endsWithWordUnit w.

(** [\b(w1|w2|...)\b] over a list of literal words. *)
Definition wordsPattern (ws : list jsstring) : regex :=
  match ws with
  | [] => Eps
  | w :: r => wholeWord (chars w) (map chars r)
  end.

Definition emergencyKeywords : list jsstring :=
  [js "emergency"; js "urgent"; js "911"; js "ambulance"; js "critical"].

(** The two word classes of the compound booking pattern. *)
Definition actionWords : list jsstring :=
  [js "book"; js "schedule"; js "appointment"; js "visit"; js "reserve";
   js "slot"; js "make"].

Definition targetWords : list jsstring :=
  [js "appointment"; js "doctor"; js "visit"].

(** The text reads [w] at [i], without regard to the case of ASCII
    letters. *)
Definition readsAt (w text : jsstring) (i : nat) : Prop :=
  map canonicalize (firstn (length w) (skipn i text)) = map canonicalize w.

(** [w] stands in the text at [i] as a whole word: no word character
    touches it on either side. *)
Definition wholeWordAt (w text : jsstring) (i : nat) : Prop :=
  readsAt w text i
  /\ isWordCharBefore text i = false
  /\ isWordChar text (i + length w) = false.

(** The entry of the doctor numbered [k] in the booking list. *)
Definition bookEntry (k : nat) (doc : Doctor) : jsstring :=
  numToString (Z.of_nat k) ++ js ". Dr. " ++ name doc ++ js " - "
    ++ specialty doc ++ js "\n"
    ++ js "   Available: " ++ join (js ", ") (days doc) ++ js "\n"
    ++ js "   Hours: " ++ numToString (start_hour doc) ++ js ":00 - "
    ++ numToString (end_hour doc) ++ js ":00\n\n".

(** One entry per doctor, numbered from 1 in the order of the list. *)
Definition bookEntries (doctors : list Doctor) : list jsstring :=
  map (fun kd => bookEntry (fst kd) (snd kd))
      (combine (seq 1 (length doctors)) doctors).

(** The block of one doctor in the search list. *)
Definition searchEntry (doc : Doctor) : jsstring :=
  js "• Dr. " ++ name doc ++ js " - " ++ specialty doc ++ js "\n"
    ++ js "  Available: " ++ join (js ", ") (days doc) ++ js "\n"
    ++ js "  Hours: " ++ numToString (start_hour doc) ++ js ":00 - "
    ++ numToString (end_hour doc) ++ js ":00\n\n".

(** The keyword table of the specification, in its order. *)
Definition specialtyTable : list (jsstring * jsstring) :=
  [(js "cardio", js "Cardiology"); (js "ortho", js "Orthopedics");
   (js "pediat", js "Pediatrics"); (js "neuro", js "Neurology");
   (js "general", js "General Medicine")].

(** The specialty of the first keyword of the table that occurs in the
    text; the empty filter when none occurs. *)
Definition firstKeyword (table : list (jsstring * jsstring))
  (text : jsstring) : jsstring :=
  match find (fun kv => includes text (fst kv)) table with
  | Some kv => snd kv
  | None => []
  end.

(** [s] contains [p] without regard to the case of ASCII letters. *)
Definition containsNoCase (s p : jsstring) : bool :=
  includes (asciiLower s) (asciiLower p).

(** The rows a filter keeps: all of them under the empty filter. *)
Definition filterBySpecialty (filter_ : jsstring) (table : list Doctor)
  : list Doctor :=
  match filter_ with
  | [] => table
  | _ :: _ => filter (fun d => containsNoCase (specialty d) filter_) table
  end.

(** What the search answers on the rows it is given. *)
Definition searchAnswer (filter_ : jsstring) (rows : list Doctor)
  : jsstring :=
  match rows with
  | [] => notFoundText
  | _ :: _ =>
      match filter_ with
      | _ :: _ => js "Here are our " ++ filter_ ++ js " specialists:\n\n"
      | [] => js "Here are our available doctors:\n\n"
      end ++ concat (map searchEntry rows) ++ searchPrompt
  end.

(** A pattern without a wildcard or a quoting character. *)
Definition plainPattern (w : jsstring) : bool :=
  forallb (fun c => negb (N.eqb c 37 || N.eqb c 42 || N.eqb c 95
                          || N.eqb c 92)) w.

(** Sample data: two rows of the seeded directory, and a deployment whose
    directory holds them. *)
Definition sampleDoctors : list Doctor :=
  [{| name := js "Dr. Michael Chen"; specialty := js "Orthopedics";
      days := [js "Monday"; js "Wednesday"; js "Friday"];
      start_hour := 10; end_hour := 18 |};
   {| name := js "Dr. Sarah Johnson"; specialty := js "Cardiology";
      days := [js "Monday"; js "Tuesday"; js "Wednesday"; js "Thursday";
               js "Friday"];
      start_hour := 9; end_hour := 17 |}].

Definition sampleClient : Client :=
  directoryClient (fun _ rows => rows) sampleDoctors.

Definition sampleWorld : World := {| createClient := Ok sampleClient |}.

Definition postRequest (v : Json) : Request :=
  {| method := js "POST"; json := Ok v |}.

Definition greetingWords : list jsstring :=
  [js "hi"; js "hello"; js "hey"; js "good morning"; js "good afternoon";
   js "good evening"].

(** The two word classes of the compound cancel pattern. *)
Definition cancelWords : list jsstring := [js "cancel"; js "remove"].

Definition bookingWords : list jsstring := [js "appointment"; js "booking"].

(** No line terminator stands in the text from [i] up to [j]. *)
Definition sameLine (text : jsstring) (i j : nat) : Prop :=
  forall k, i <= k < j ->
    exists d, nth_error text k = Some d /\ isLineTerminator d = false.

(** A word of [first] stands in the text as a whole word and, after it on
    the same line, a word of [second] does. *)
Definition compoundOccurs (first second : list jsstring) (text : jsstring)
  : Prop :=
  exists a t i j,
    In a first /\ In t second
    /\ wholeWordAt a text i /\ wholeWordAt t text j
    /\ i + length a < j
    /\ sameLine text (i + length a) j.

(** The text carries no emergency phrase and no emergency keyword. *)
Definition noEmergency (text : jsstring) : Prop :=
  (forall p, In p emergencySymptoms -> ~ occursIn p text)
  /\ (forall w i, In w emergencyKeywords -> ~ wholeWordAt w text i).

(** The captions of the quick-reply buttons of the chat page, which become
    the message when pressed and sent. *)
Definition quickReplies : list jsstring :=
  [js "Book Appointment"; js "Visiting Hours"; js "Find Doctor";
   js "Emergency"].

(** The query of the [book_appointment] case. *)
Definition bookQuery : Query :=
  order (js "name") (select (js "*") (from (js "doctors"))).

Definition sampleCardiologist : Doctor :=
  {| name := js "Dr. Sarah Johnson"; specialty := js "Cardiology";
     days := [js "Monday"; js "Tuesday"; js "Wednesday"; js "Thursday";
              js "Friday"];
     start_hour := 9; end_hour := 17 |}.

(** The events that are directory reads. *)
Definition isQuery (e : Event) : bool :=
  match e with
  | EvQuery _ => true
  | _ => false
  end.

(** The answer to a preflight request. *)
Definition preflightResponse : Response :=
  {| status := 200; headers := corsHeaders; body := None |}.

(** The answer of the success path. *)
Definition okResponse (intent response : jsstring) : Response :=
  {| status := 200;
     headers := jsonHeaders;
     body := Some (JObj [(js "intent", JStr intent);
                         (js "response", JStr response)]) |}.

(* ================================================================= *)
(** ** The chat page

    [handleSend] of the chat page is the caller of the function: it
    filters the input, stores the user's message, invokes the function and
    stores the answer.  The page state is the React state it reads and
    sets; what the database, the function and the browser answer is given
    by an environment. *)

(** WhiteSpace and LineTerminator, the code units [trim] strips: TAB, VT,
    FF, SP, NBSP, the other space separators, the byte order mark, LF, CR,
    LS and PS. *)
Definition isWhiteSpace (c : N) : bool :=
  N.eqb c 9 || N.eqb c 11 || N.eqb c 12 || N.eqb c 32 || N.eqb c 160
  || N.eqb c 5760 || (N.leb 8192 c && N.leb c 8202) || N.eqb c 8239
  || N.eqb c 8287 || N.eqb c 12288 || N.eqb c 65279
  || N.eqb c 10 || N.eqb c 13 || N.eqb c 8232 || N.eqb c 8233.

Fixpoint trimStart (s : jsstring) : jsstring :=
  match s with
  | [] => []
  | c :: r => if isWhiteSpace c then trimStart r else s
  end.

Definition trimEnd (s : jsstring) : jsstring := rev (trimStart (rev s)).

(** [String.prototype.trim] *)
Definition trim (s : jsstring) : jsstring := trimEnd (trimStart s).

Module Chat.

Record Message := {
  id : jsstring;
  role : jsstring;
  content : jsstring;
  intent : option jsstring;
  created_at : jsstring
}.

(** The state variables of the page; [session] holds the id of
    [session.user] when there is one. *)
Record State := {
  session : option jsstring;
  messages : list Message;
  input : jsstring;
  loading : bool;
  conversationId : option jsstring
}.

(** [{ data, error }] of [supabase.functions.invoke]. *)
Record InvokeResult := {
  data : option Json;
  error : option Thrown
}.

(** What the outside answers during one [handleSend]. *)
Record Env := {
  randomUUID : jsstring;
  nowISOString : jsstring;
  insertUserMessage : jsstring -> jsstring -> Exc unit;
  invoke : Json -> Exc InvokeResult;
  insertAssistantMessage :
    jsstring -> option Json -> option Json -> Exc (option Message);
  nullReadError : Thrown
}.

Inductive Event : Type :=
| CallInsertUser (conversation_id content : jsstring)
| CallInvoke (body : Json)
| CallInsertAssistant (conversation_id : jsstring)
    (content intent : option Json)
| ConsoleError (e : Thrown)
| Toast (title description : jsstring).

(** [!conversationId] is false on a non-empty string only. *)
Definition usable (conversationId : option jsstring) : option jsstring :=
  match conversationId with
  | Some (c :: r) => Some (c :: r)
  | _ => None
  end.

Definition setMessages (st : State) (ms : list Message) : State :=
  {| session := session st; messages := ms; input := input st;
     loading := loading st; conversationId := conversationId st |}.

Definition setInput (st : State) (s : jsstring) : State :=
  {| session := session st; messages := messages st; input := s;
     loading := loading st; conversationId := conversationId st |}.

Definition setLoading (st : State) (b : bool) : State :=
  {| session := session st; messages := messages st; input := input st;
     loading := b; conversationId := conversationId st |}.

(** [data.response], [data.intent] *)
Definition field (key : jsstring) (d : Json) : option Json :=
  match d with
  | JObj l => getProperty key l
  | _ => None
  end.

(** The body of the [try] block of [handleSend]. *)
Definition trySend (env : Env) (st : State)
  (conversation user userMessage : jsstring)
  : Exc unit * State * list Event :=
  (* Save user message to database *)
  let sent := [CallInsertUser conversation userMessage] in
  match insertUserMessage env conversation userMessage with
  | Throw e => (Throw e, st, sent)
  | Ok _ =>
      (* Get intent and response from edge function *)
      let body := JObj [(js "message", JStr userMessage);
                        (js "userId", JStr user)] in
      let sent := sent ++ [CallInvoke body] in
      match invoke env body with
      | Throw e => (Throw e, st, sent)
      | Ok result =>
          match error result with
          | Some e => (Throw e, st, sent)
          | None =>
              match data result with
              | None => (Throw (nullReadError env), st, sent)
              | Some d =>
                  (* Add assistant response *)
                  let sent :=
                    sent ++ [CallInsertAssistant conversation
                               (field (js "response") d)
                               (field (js "intent") d)] in
                  match insertAssistantMessage env conversation
                          (field (js "response") d)
                          (field (js "intent") d) with
                  | Throw e => (Throw e, st, sent)
                  | Ok None => (Ok tt, st, sent)
                  | Ok (Some savedMsg) =>
                      (Ok tt, setMessages st (messages st ++ [savedMsg]),
                       sent)
                  end
              end
          end
      end
  end.

Definition handleSend (env : Env) (st : State) : State * list Event :=
  match trim (input st), usable (conversationId st), session st with
  | c :: m, Some conversation, Some user =>
      let userMessage := c :: m in
      let st := setInput st [] in
      let st := setLoading st true in
      (* Add user message to UI immediately *)
      let tempUserMsg :=
        {| id := randomUUID env; role := js "user"; content := userMessage;
           intent := None; created_at := nowISOString env |} in
      let st := setMessages st (messages st ++ [tempUserMsg]) in
      match trySend env st conversation user userMessage with
      | (Ok _, st, sent) => (setLoading st false, sent)
      | (Throw e, st, sent) =>
          (setLoading st false,
           sent ++ [ConsoleError e;
                    Toast (js "Error")
                      (js "Failed to send message. Please try again.")])
      end
  | _, _, _ => (st, [])
  end.

End Chat.

(** The error of [supabase.functions.invoke] on a status outside 2xx. *)
Definition functionsHttpError : Thrown :=
  {| thrown_message :=
       Some (js "Edge Function returned a non-2xx status code") |}.

(** [supabase.functions.invoke("chat-intent", { body })] against the
    function as deployed in [w]: the body is posted as JSON; an answer with
    a status in 2xx gives its parsed body as [data], any other status gives
    [data: null] and an error. *)
Definition invokeChatIntent {E : JsEngine} (w : World) (payload : Json)
  : Exc Chat.InvokeResult :=
  let response := fst (serve w (postRequest payload)) in
  if N.leb 200 (status response) && N.ltb (status response) 300
  then Ok {| Chat.data := body response; Chat.error := None |}
  else Ok {| Chat.data := None; Chat.error := Some functionsHttpError |}.

(** Sample data for the chat page: an environment in which the database
    accepts the messages and the function is the one deployed in
    [sampleWorld], and a page with a session, a conversation and an input
    with blanks around it. *)
Definition sampleSavedMessage : Chat.Message :=
  {| Chat.id := js "6f1c";
     Chat.role := js "assistant";
     Chat.content := greetingText;
     Chat.intent := Some (js "greeting");
     Chat.created_at := js "2025-11-13T05:17:22.000Z" |}.

Definition sampleChatEnv : Chat.Env :=
  {| Chat.randomUUID := js "00000000-0000-4000-8000-000000000000";
     Chat.nowISOString := js "2025-11-13T05:17:21.000Z";
     Chat.insertUserMessage := fun _ _ => Ok tt;
     Chat.invoke := @invokeChatIntent asciiEngine sampleWorld;
     Chat.insertAssistantMessage := fun _ _ _ => Ok (Some sampleSavedMessage);
     Chat.nullReadError :=
       {| thrown_message := Some (js "Cannot read properties of null") |} |}.

Definition sampleChatState : Chat.State :=
  {| Chat.session := Some (js "user-1");
     Chat.messages := [];
     Chat.input := js "  hello ";
     Chat.loading := false;
     Chat.conversationId := Some (js "conv-1") |}.

Definition blankChatState : Chat.State :=
  {| Chat.session := Some (js "user-1");
     Chat.messages := [];
     Chat.input := js "   ";
     Chat.loading := false;
     Chat.conversationId := Some (js "conv-1") |}.

(* ================================================================= *)
(** ** The schema: roles, the signup trigger and the row policies

    The migration is embedded as functions over the tables.  A policy
    expression that compares with [auth.uid()] is false for a request
    without a user, as a comparison with NULL does not pass.  The
    permissive policies of a table that apply to a command are combined
    with OR; a command with no policy is refused. *)

Module Schema.

Definition uuid := N.
Definition timestamptz := N.

Inductive app_role : Type := admin | patient.

Inductive appointment_status : Type :=
  pending | confirmed | cancelled | completed.

Record profiles := {
  profiles_id : uuid;
  full_name : jsstring;
  phone : option jsstring;
  date_of_birth : option jsstring;
  profiles_created_at : timestamptz
}.

Record user_roles := {
  user_roles_id : uuid;
  user_id : uuid;
  role : app_role;
  user_roles_created_at : timestamptz
}.

Record appointments := {
  appointments_id : uuid;
  patient_id : uuid;
  doctor_id : uuid;
  appointment_date : jsstring;
  appointment_time : jsstring;
  status : option appointment_status;
  notes : option jsstring;
  appointments_created_at : timestamptz;
  updated_at : timestamptz
}.

Record conversations := {
  conversations_id : uuid;
  conversations_user_id : uuid;
  title : option jsstring;
  conversations_created_at : timestamptz;
  conversations_updated_at : timestamptz
}.

Record messages := {
  messages_id : uuid;
  conversation_id : uuid;
  messages_role : jsstring;
  content : jsstring;
  intent : option jsstring;
  messages_created_at : timestamptz
}.

(** The tables the policies and the trigger read or write. *)
Record Db := {
  t_profiles : list profiles;
  t_user_roles : list user_roles;
  t_appointments : list appointments;
  t_conversations : list conversations;
  t_messages : list messages
}.

Definition app_role_eqb (a b : app_role) : bool :=
  match a, b with
  | admin, admin => true
  | patient, patient => true
  | _, _ => false
  end.

(** [auth.uid() = x] *)
Definition uid_is (uid : option uuid) (x : uuid) : bool :=
  match uid with
  | Some u => N.eqb u x
  | None => false
  end.

(** [public.has_role(_user_id, _role)] *)
Definition has_role (db : Db) (_user_id : option uuid) (_role : app_role)
  : bool :=
  existsb (fun r => uid_is _user_id (user_id r) && app_role_eqb (role r) _role)
          (t_user_roles db).

(** [CHECK (role IN ('user', 'assistant', 'system'))] *)
Definition messages_role_check (m : messages) : bool :=
  jsstring_eqb (messages_role m) (js "user")
  || jsstring_eqb (messages_role m) (js "assistant")
  || jsstring_eqb (messages_role m) (js "system").

Inductive Command : Type := SELECT | INSERT | UPDATE | DELETE.

Inductive PolicyFor : Type := FOR_SELECT | FOR_INSERT | FOR_UPDATE | FOR_ALL.

Record Policy (Row : Type) := {
  policy_name : string;
  policy_for : PolicyFor;
  policy_using : option (Db -> option uuid -> Row -> bool);
  policy_with_check : option (Db -> option uuid -> Row -> bool)
}.

Arguments policy_name {Row} p.
Arguments policy_for {Row} p.
Arguments policy_using {Row} p.
Arguments policy_with_check {Row} p.

Definition applies {Row} (p : Policy Row) (c : Command) : bool :=
  match policy_for p, c with
  | FOR_ALL, _ => true
  | FOR_SELECT, SELECT => true
  | FOR_INSERT, INSERT => true
  | FOR_UPDATE, UPDATE => true
  | _, _ => false
  end.

(** The USING expression of a policy on a row. *)
Definition passes_using {Row} (db : Db) (uid : option uuid) (row : Row)
  (p : Policy Row) : bool :=
  match policy_using p with
  | Some e => e db uid row
  | None => true
  end.

(** The WITH CHECK expression, which is the USING expression when the
    policy gives none. *)
Definition passes_check {Row} (db : Db) (uid : option uuid) (row : Row)
  (p : Policy Row) : bool :=
  match policy_with_check p with
  | Some e => e db uid row
  | None => passes_using db uid row p
  end.

(** A row may be read, or be the target of an update or a delete. *)
Definition allowed_on {Row} (ps : list (Policy Row)) (c : Command)
  (db : Db) (uid : option uuid) (row : Row) : bool :=
  existsb (fun p => applies p c && passes_using db uid row p) ps.

(** A row may be written: inserted, or be the result of an update. *)
Definition allowed_new {Row} (ps : list (Policy Row)) (c : Command)
  (db : Db) (uid : option uuid) (row : Row) : bool :=
  existsb (fun p => applies p c && passes_check db uid row p) ps.

Definition on_rows {Row} (name_ : string) (f : PolicyFor)
  (e : Db -> option uuid -> Row -> bool) : Policy Row :=
  {| policy_name := name_; policy_for := f;
     policy_using := Some e; policy_with_check := None |}.

Definition on_new_rows {Row} (name_ : string) (f : PolicyFor)
  (e : Db -> option uuid -> Row -> bool) : Policy Row :=
  {| policy_name := name_; policy_for := f;
     policy_using := None; policy_with_check := Some e |}.

(** RLS Policies for profiles *)
Definition profiles_policies : list (Policy profiles) :=
  [on_rows "Users can view own profile" FOR_SELECT
     (fun _ uid r => uid_is uid (profiles_id r));
   on_rows "Users can update own profile" FOR_UPDATE
     (fun _ uid r => uid_is uid (profiles_id r))].

(** RLS Policies for user_roles *)
Definition user_roles_policies : list (Policy user_roles) :=
  [on_rows "Users can view own roles" FOR_SELECT
     (fun _ uid r => uid_is uid (user_id r));
   on_rows "Admins can view all roles" FOR_SELECT
     (fun db uid _ => has_role db uid admin);
   on_new_rows "Admins can insert roles" FOR_INSERT
     (fun db uid _ => has_role db uid admin)].

(** RLS Policies for doctors *)
Definition doctors_policies : list (Policy Doctor) :=
  [on_rows "Everyone can view doctors" FOR_SELECT (fun _ _ _ => true);
   on_rows "Admins can manage doctors" FOR_ALL
     (fun db uid _ => has_role db uid admin)].

(** RLS Policies for appointments *)
Definition appointments_policies : list (Policy appointments) :=
  [on_rows "Patients can view own appointments" FOR_SELECT
     (fun _ uid r => uid_is uid (patient_id r));
   on_rows "Admins can view all appointments" FOR_SELECT
     (fun db uid _ => has_role db uid admin);
   on_new_rows "Patients can create appointments" FOR_INSERT
     (fun _ uid r => uid_is uid (patient_id r));
   on_rows "Patients can update own appointments" FOR_UPDATE
     (fun _ uid r => uid_is uid (patient_id r));
   on_rows "Admins can update all appointments" FOR_UPDATE
     (fun db uid _ => has_role db uid admin)].

(** RLS Policies for conversations *)
Definition conversations_policies : list (Policy conversations) :=
  [on_rows "Users can view own conversations" FOR_SELECT
     (fun _ uid r => uid_is uid (conversations_user_id r));
   on_rows "Admins can view all conversations" FOR_SELECT
     (fun db uid _ => has_role db uid admin);
   on_new_rows "Users can create own conversations" FOR_INSERT
     (fun _ uid r => uid_is uid (conversations_user_id r));
   on_rows "Users can update own conversations" FOR_UPDATE
     (fun _ uid r => uid_is uid (conversations_user_id r))].

(** [EXISTS (SELECT 1 FROM conversations WHERE conversations.id =
    messages.conversation_id AND conversations.user_id = auth.uid())] *)
Definition in_own_conversation (db : Db) (uid : option uuid) (m : messages)
  : bool :=
  existsb (fun c => N.eqb (conversations_id c) (conversation_id m)
                    && uid_is uid (conversations_user_id c))
          (t_conversations db).

(** RLS Policies for messages *)
Definition messages_policies : list (Policy messages) :=
  [on_rows "Users can view messages in own conversations" FOR_SELECT
     in_own_conversation;
   on_rows "Admins can view all messages" FOR_SELECT
     (fun db uid _ => has_role db uid admin);
   on_new_rows "Users can create messages in own conversations" FOR_INSERT
     in_own_conversation].

(** The new row of [auth.users] as the trigger reads it, with what the
    defaults of the two inserts draw: a fresh id and the time. *)
Record NewUser := {
  new_id : uuid;
  raw_full_name : option jsstring;
  fresh_role_id : uuid;
  at_time : timestamptz
}.

(** [public.handle_new_user()]: the profile, then the patient role.  A
    violated key (the primary key of profiles, the uniqueness of
    (user_id, role)) raises, and nothing is written. *)
Definition handle_new_user (db : Db) (NEW : NewUser) : option Db :=
  if existsb (fun p => N.eqb (profiles_id p) (new_id NEW)) (t_profiles db)
  then None
  else if existsb (fun r => N.eqb (user_id r) (new_id NEW)
                            && app_role_eqb (role r) patient)
                  (t_user_roles db)
          || existsb (fun r => N.eqb (user_roles_id r) (fresh_role_id NEW))
                     (t_user_roles db)
  then None
  else
    Some {| t_profiles :=
              t_profiles db ++
              [{| profiles_id := new_id NEW;
                  full_name := match raw_full_name NEW with
                               | Some n => n
                               | None => js "User"
                               end;
                  phone := None;
                  date_of_birth := None;
                  profiles_created_at := at_time NEW |}];
            t_user_roles :=
              t_user_roles db ++
              [{| user_roles_id := fresh_role_id NEW;
                  user_id := new_id NEW;
                  role := patient;
                  user_roles_created_at := at_time NEW |}];
            t_appointments := t_appointments db;
            t_conversations := t_conversations db;
            t_messages := t_messages db |}.

(** What a client can ask of [user_roles], and a signup. *)
Inductive Request : Type :=
| SignUp (NEW : NewUser)
| InsertRole (uid : option uuid) (row : user_roles)
| UpdateRole (uid : option uuid) (old new : user_roles)
| DeleteRole (uid : option uuid) (row : user_roles).

Definition set_user_roles (db : Db) (rs : list user_roles) : Db :=
  {| t_profiles := t_profiles db; t_user_roles := rs;
     t_appointments := t_appointments db;
     t_conversations := t_conversations db;
     t_messages := t_messages db |}.

Definition user_roles_eqb (a b : user_roles) : bool :=
  N.eqb (user_roles_id a) (user_roles_id b).

(** A request under the policies; a refused or failing request leaves the
    tables as they are. *)
Definition step (db : Db) (r : Request) : Db :=
  match r with
  | SignUp NEW =>
      match handle_new_user db NEW with
      | Some db' => db'
      | None => db
      end
  | InsertRole uid row =>
      if allowed_new user_roles_policies INSERT db uid row
         && negb (existsb (fun r' => N.eqb (user_roles_id r') (user_roles_id row)
                                     || (N.eqb (user_id r') (user_id row)
                                         && app_role_eqb (role r') (role row)))
                          (t_user_roles db))
      then set_user_roles db (t_user_roles db ++ [row])
      else db
  | UpdateRole uid old new =>
      if allowed_on user_roles_policies UPDATE db uid old
         && allowed_new user_roles_policies UPDATE db uid new
      then set_user_roles db
             (map (fun r' => if user_roles_eqb r' old then new else r')
                  (t_user_roles db))
      else db
  | DeleteRole uid row =>
      if allowed_on user_roles_policies DELETE db uid row
      then set_user_roles db
             (filter (fun r' => negb (user_roles_eqb r' row))
                     (t_user_roles db))
      else db
  end.

Definition run (db : Db) (rs : list Request) : Db := fold_left step rs db.

(** No row of [user_roles] gives the admin role. *)
Definition no_admin (db : Db) : Prop :=
  forall r, In r (t_user_roles db) -> role r = patient.

End Schema.

(* ================================================================= *)
(** ** The admin page *)

(** [.single()]: the row when the result has exactly one, else
    [data: null]. *)
Definition single {A : Type} (rows : list A) : option A :=
  match rows with
  | [x] => Some x
  | _ => None
  end.

(** The rows of [user_roles] the signed-in user may read. *)
Definition visibleRoles (db : Schema.Db) (userId : Schema.uuid)
  : list Schema.user_roles :=
  filter (Schema.allowed_on Schema.user_roles_policies Schema.SELECT db
            (Some userId))
         (Schema.t_user_roles db).

(** [checkAdminAccess]: the page asks for the admin role row of the
    signed-in user and loads its data when it gets one; [true] stands for
    the call of [loadData], [false] for the refusal. *)
Definition checkAdminAccess (db : Schema.Db) (userId : Schema.uuid) : bool :=
  let data :=
    single
      (filter (fun r => Schema.app_role_eqb (Schema.role r) Schema.admin)
         (filter (fun r => N.eqb (Schema.user_id r) userId)
            (visibleRoles db userId))) in
  match data with
  | Some _ => true
  | None => false
  end.

(** [UNIQUE(user_id, role)] *)
Definition unique_roles (db : Schema.Db) : Prop :=
  NoDup (map (fun r => (Schema.user_id r, Schema.role r))
             (Schema.t_user_roles db)).

(** Sample data for the schema: empty tables, a signup, and an attempt of
    the new user to take the admin role. *)
Definition emptyDb : Schema.Db :=
  {| Schema.t_profiles := []; Schema.t_user_roles := [];
     Schema.t_appointments := []; Schema.t_conversations := [];
     Schema.t_messages := [] |}.

Definition sampleNewUser : Schema.NewUser :=
  {| Schema.new_id := 7%N; Schema.raw_full_name := None;
     Schema.fresh_role_id := 70%N; Schema.at_time := 1000%N |}.

Definition sampleRequests : list Schema.Request :=
  [Schema.SignUp sampleNewUser;
   Schema.InsertRole (Some 7%N)
     {| Schema.user_roles_id := 71%N; Schema.user_id := 7%N;
        Schema.role := Schema.admin;
        Schema.user_roles_created_at := 1001%N |}].

(** Seed doctors data *)
Definition seedDoctors : list Doctor :=
  [{| name := js "Dr. Sarah Johnson"; specialty := js "Cardiology";
      days := [js "Monday"; js "Tuesday"; js "Wednesday"; js "Thursday";
               js "Friday"];
      start_hour := 9; end_hour := 17 |};
   {| name := js "Dr. Michael Chen"; specialty := js "Orthopedics";
      days := [js "Monday"; js "Wednesday"; js "Friday"];
      start_hour := 10; end_hour := 18 |};
   {| name := js "Dr. Emily Rodriguez"; specialty := js "Pediatrics";
      days := [js "Tuesday"; js "Thursday"; js "Saturday"];
      start_hour := 8; end_hour := 16 |};
   {| name := js "Dr. David Kumar"; specialty := js "Neurology";
      days := [js "Monday"; js "Tuesday"; js "Thursday"; js "Friday"];
      start_hour := 9; end_hour := 17 |};
   {| name := js "Dr. Lisa Thompson"; specialty := js "General Medicine";
      days := [js "Monday"; js "Tuesday"; js "Wednesday"; js "Thursday";
               js "Friday"; js "Saturday"];
      start_hour := 8; end_hour := 20 |}].

(** The CHECK constraints of [public.doctors]. *)
Definition doctors_check (d : Doctor) : bool :=
  (Z.leb 0 (start_hour d) && Z.ltb (start_hour d) 24)
  && (Z.leb 0 (end_hour d) && Z.leb (end_hour d) 24).

(* ================================================================= *)
(** * Properties *)

(** ** Strings *)

Lemma jsstring_eqb_eq (a b : jsstring) : jsstring_eqb a b = true <-> a = b.
Proof.
  unfold jsstring_eqb. destruct (list_eq_dec N.eq_dec a b); split;
    intros; congruence.
Qed.

Lemma jsstring_eqb_neq (a b : jsstring) : jsstring_eqb a b = false <-> a <> b.
Proof.
  unfold jsstring_eqb. destruct (list_eq_dec N.eq_dec a b); split;
    intros; congruence.
Qed.

Lemma jsstring_eqb_refl (a : jsstring) : jsstring_eqb a a = true.
Proof. now apply jsstring_eqb_eq. Qed.

Lemma startsWith_prefix (p : jsstring) :
  forall s, startsWith s p = true <-> exists post, s = p ++ post.
Proof.
  induction p as [|c p IH]; intros s; simpl.
  - split; [intros _; now exists s | reflexivity].
  - destruct s as [|d s].
    + split; [discriminate|]. intros [post H]. discriminate.
    + rewrite andb_true_iff, N.eqb_eq, IH. split.
      * intros [-> [post ->]]. now exists post.
      * intros [post H]. injection H as -> ->. eauto.
Qed.

Lemma skipn_app_exact (A : Type) (pre rest : list A) :
  skipn (length pre) (pre ++ rest) = rest.
Proof.
  rewrite skipn_app, skipn_all, Nat.sub_diag. reflexivity.
Qed.

Lemma includes_occursIn (s p : jsstring) :
  includes s p = true <-> occursIn p s.
Proof.
  unfold includes, occursIn. rewrite existsb_exists. split.
  - intros [i [_ H]]. apply startsWith_prefix in H as [post H].
    exists (firstn i s), post. rewrite <- H. symmetry. apply firstn_skipn.
  - intros [pre [post ->]]. exists (length pre). split.
    + apply in_seq. rewrite !length_app. lia.
    + rewrite skipn_app_exact. apply startsWith_prefix. eauto.
Qed.

Lemma skipn_nth_error (A : Type) (s : list A) :
  forall i,
    skipn i s = match nth_error s i with
                | Some d => d :: skipn (S i) s
                | None => []
                end.
Proof.
  induction s as [|a s IH]; intros [|i]; simpl; try reflexivity.
  apply IH.
Qed.

Lemma canonicalize_word (c d : N) :
  canonicalize d = canonicalize c -> isWordUnit d = isWordUnit c.
Proof.
  unfold canonicalize, isWordUnit. intros H.
  apply eq_iff_eq_true.
  rewrite !orb_true_iff, !andb_true_iff, !N.leb_le, !N.eqb_eq.
  revert H.
  destruct (N.leb_spec 97 d), (N.leb_spec d 122), (N.leb_spec 97 c),
    (N.leb_spec c 122); simpl; intros Heq; split; lia.
Qed.

(** ** The matcher *)

Lemma readsAt_nil (s : jsstring) (i : nat) : readsAt [] s i.
Proof. reflexivity. Qed.

Lemma readsAt_cons (c : N) (w s : jsstring) (i : nat) :
  readsAt (c :: w) s i <->
  exists d, nth_error s i = Some d
            /\ canonicalize d = canonicalize c
            /\ readsAt w s (S i).
Proof.
  unfold readsAt. rewrite (skipn_nth_error s i).
  destruct (nth_error s i) as [d|]; simpl.
  - split.
    + intros H. injection H as H1 H2. eauto.
    + intros [d' [H [H1 H2]]]. injection H as <-. now rewrite H1, H2.
  - split; [discriminate|]. intros [d [H _]]. discriminate.
Qed.

Lemma chars_ends (w : jsstring) :
  forall s i j,
    In j (ends (chars w) s i) <-> j = i + length w /\ readsAt w s i.
Proof.
  induction w as [|c w IH]; intros s i j; simpl.
  - split.
    + intros [<-|[]]. split; [lia | apply readsAt_nil].
    + intros [-> _]. left. lia.
  - rewrite in_flat_map, readsAt_cons. split.
    + intros [k [Hk Hj]]. apply IH in Hj as [-> Hr].
      destruct (nth_error s i) as [d|]; [|contradiction].
      destruct (N.eqb_spec (canonicalize d) (canonicalize c));
        [|contradiction].
      destruct Hk as [<-|[]]. split; [lia|eauto].
    + intros [-> [d [Hd [Hc Hr]]]]. exists (S i). rewrite Hd, Hc, N.eqb_refl.
      split; [now left|]. apply IH. split; [lia|assumption].
Qed.

Lemma alts_ends (rs : list regex) :
  forall r s i j,
    In j (ends (alts r rs) s i) <->
    exists r', In r' (r :: rs) /\ In j (ends r' s i).
Proof.
  induction rs as [|r1 rs IH]; intros r s i j; simpl alts.
  - split.
    + intros H. exists r. split; [now left|assumption].
    + intros [r' [[<-|[]] H]]. assumption.
  - simpl ends. rewrite in_app_iff, IH. split.
    + intros [H|[r' [Hin H]]].
      * exists r. split; [now left|assumption].
      * exists r'. split; [now right|assumption].
    + intros [r' [[<-|Hin] H]]; [now left|right; eauto].
Qed.

Lemma wordB_ends (s : jsstring) (i j : nat) :
  In j (ends WordB s i) <->
  j = i /\ xorb (isWordCharBefore s i) (isWordChar s i) = true.
Proof.
  simpl. destruct (xorb _ _); simpl; split.
  - intros [<-|[]]. auto.
  - intros [-> _]. now left.
  - contradiction.
  - intros [_ H]. discriminate.
Qed.

Lemma wholeWord_ends (r : regex) (rs : list regex) (s : jsstring)
  (i j : nat) :
  In j (ends (wholeWord r rs) s i) <->
  xorb (isWordCharBefore s i) (isWordChar s i) = true
  /\ In j (ends (alts r rs) s i)
  /\ xorb (isWordCharBefore s j) (isWordChar s j) = true.
Proof.
  unfold wholeWord. change (ends (Cat WordB ?x) s i)
    with (flat_map (ends x s) (ends WordB s i)).
  rewrite in_flat_map. split.
  - intros [k [Hk H]]. apply wordB_ends in Hk as [-> Hb].
    change (In j (flat_map (ends WordB s) (ends (alts r rs) s i))) in H.
    apply in_flat_map in H as [k [Hk H]].
    apply wordB_ends in H as [-> Hb']. auto.
  - intros [Hb [H Hb']]. exists i. split; [now apply wordB_ends|].
    change (In j (flat_map (ends WordB s) (ends (alts r rs) s i))).
    apply in_flat_map. exists j. split; [assumption|now apply wordB_ends].
Qed.

Lemma star_ends_ge (step : nat -> list nat) (fuel : nat) :
  forall i j, In j (star_ends step fuel i) -> i <= j.
Proof.
  induction fuel as [|f IH]; intros i j; simpl.
  - intros [<-|[]]. lia.
  - rewrite in_app_iff, in_flat_map. intros [[k [Hk H]]|[<-|[]]]; [|lia].
    apply filter_In in Hk as [_ Hk]. apply Nat.ltb_lt in Hk.
    apply IH in H. lia.
Qed.

Lemma cat_ends (r1 r2 : regex) (s : jsstring) (i j : nat) :
  In j (ends (Cat r1 r2) s i) <->
  exists k, In k (ends r1 s i) /\ In j (ends r2 s k).
Proof.
  change (ends (Cat r1 r2) s i) with (flat_map (ends r2 s) (ends r1 s i)).
  apply in_flat_map.
Qed.

Lemma star_ends_later (r : regex) (s : jsstring) (i j : nat) :
  In j (ends (Star r) s i) -> i <= j.
Proof. apply star_ends_ge. Qed.

Lemma test_true (r : regex) (s : jsstring) :
  test r s = true <-> exists i j, i <= length s /\ In j (ends r s i).
Proof.
  unfold test. rewrite existsb_exists. split.
  - intros [i [Hi H]]. apply in_seq in Hi.
    destruct (ends r s i) as [|j l] eqn:He; [discriminate|].
    exists i, j. rewrite He. split; [lia|now left].
  - intros [i [j [Hi H]]]. exists i. split; [apply in_seq; lia|].
    destruct (ends r s i); [contradiction|reflexivity].
Qed.

Lemma readsAt_first_word (w s : jsstring) (i : nat) :
  readsAt w s i -> startsWithWordUnit w = true ->
  isWordChar s i = true /\ i < length s.
Proof.
  destruct w as [|c w]; [discriminate|].
  intros H Hw. apply readsAt_cons in H as [d [Hd [Hc _]]].
  unfold isWordChar. rewrite Hd. split.
  - rewrite (canonicalize_word _ _ Hc). exact Hw.
  - apply nth_error_Some. congruence.
Qed.

Lemma readsAt_last_word (w : jsstring) :
  forall s i,
    readsAt w s i -> endsWithWordUnit w = true ->
    isWordCharBefore s (i + length w) = true.
Proof.
  induction w as [|c w IH]; intros s i H Hw; [discriminate|].
  apply readsAt_cons in H as [d [Hd [Hc Hr]]].
  destruct w as [|c' w'].
  - simpl. replace (i + 1) with (S i) by lia. simpl.
    unfold isWordChar. rewrite Hd, (canonicalize_word _ _ Hc). exact Hw.
  - replace (i + length (c :: c' :: w')) with (S i + length (c' :: w'))
      by (simpl; lia).
    apply IH; assumption.
Qed.

Lemma wordsPattern_ends (w0 : jsstring) (ws : list jsstring) (s : jsstring)
  (i j : nat) :
  forallb wordy (w0 :: ws) = true ->
  In j (ends (wordsPattern (w0 :: ws)) s i) <->
  exists w, In w (w0 :: ws) /\ j = i + length w /\ wholeWordAt w s i.
Proof.
  intros Hws. rewrite forallb_forall in Hws.
  simpl wordsPattern. rewrite wholeWord_ends, alts_ends. split.
  - intros [Hb [[r' [Hin H]] Hb']].
    change (In r' (map chars (w0 :: ws))) in Hin.
    apply in_map_iff in Hin as [w [<- Hin]].
    apply chars_ends in H as [-> Hr].
    specialize (Hws w Hin). apply andb_true_iff in Hws as [Hf Hl].
    destruct (readsAt_first_word Hr Hf) as [Hi _].
    pose proof (readsAt_last_word Hr Hl) as Hj.
    rewrite Hi in Hb. rewrite Hj in Hb'.
    exists w. repeat split; try assumption.
    + now destruct (isWordCharBefore s i).
    + now destruct (isWordChar s (i + length w)).
  - intros [w [Hin [-> [Hr [Hb Ha]]]]].
    specialize (Hws w Hin). apply andb_true_iff in Hws as [Hf Hl].
    destruct (readsAt_first_word Hr Hf) as [Hi _].
    pose proof (readsAt_last_word Hr Hl) as Hj.
    rewrite Hi, Hj, Hb, Ha. repeat split.
    exists (chars w). split; [|apply chars_ends; auto].
    change (In (chars w) (map chars (w0 :: ws))). now apply in_map.
Qed.

(** ** The classifier *)

Lemma someEmergencySymptom_true (text : jsstring) :
  someEmergencySymptom text = true <->
  exists p, In p emergencySymptoms /\ occursIn p text.
Proof.
  unfold someEmergencySymptom. rewrite existsb_exists.
  split; intros [p [Hin H]]; exists p; split; try assumption;
    now apply includes_occursIn.
Qed.

Lemma wordsPattern_test (w0 : jsstring) (ws : list jsstring)
  (text : jsstring) :
  forallb wordy (w0 :: ws) = true ->
  test (wordsPattern (w0 :: ws)) text = true <->
  exists w i, In w (w0 :: ws) /\ wholeWordAt w text i.
Proof.
  intros Hws. rewrite test_true. split.
  - intros [i [j [_ H]]]. apply wordsPattern_ends in H; [|exact Hws].
    destruct H as [w [Hin [_ H]]]. eauto.
  - intros [w [i [Hin H]]]. exists i, (i + length w). split.
    + rewrite forallb_forall in Hws. specialize (Hws w Hin).
      apply andb_true_iff in Hws as [Hf _]. destruct H as [Hr _].
      destruct (readsAt_first_word Hr Hf). lia.
    + apply wordsPattern_ends; [exact Hws|]. eauto.
Qed.

Lemma emergency_test (text : jsstring) :
  test intentPatterns.emergency text = true <->
  exists w i, In w emergencyKeywords /\ wholeWordAt w text i.
Proof.
  change intentPatterns.emergency with (wordsPattern emergencyKeywords).
  apply wordsPattern_test. reflexivity.
Qed.

Lemma asciiLower_app (a b : jsstring) :
  asciiLower (a ++ b) = asciiLower a ++ asciiLower b.
Proof. apply map_app. Qed.

(** Running the classifier on text that is all ASCII. *)
Ltac classify :=
  unfold detectIntent;
  rewrite toLowerCase_ascii by reflexivity;
  vm_compute; reflexivity.

(** C1.  Emergency priority: a message whose lowercased text contains an
    emergency phrase as a substring, or an emergency keyword as a whole
    word, is labelled [emergency], whatever else it says; in particular an
    ASCII message that contains "chest pain" is labelled [emergency] and
    not [book_appointment], as is the example of the specification. *)
Theorem emergency_priority (E : JsEngine) (message : jsstring) :
  ((exists p, In p emergencySymptoms /\ occursIn p (toLowerCase message))
   \/ (exists w i, In w emergencyKeywords
                   /\ wholeWordAt w (toLowerCase message) i)
   -> detectIntent message = js "emergency")
  /\ (isAscii message = true -> occursIn (js "chest pain") message ->
      detectIntent message = js "emergency"
      /\ detectIntent message <> js "book_appointment")
  /\ detectIntent (js "I have chest pain, can I book an appointment")
     = js "emergency".
Proof.
  assert (Hmain :
    forall m,
      (exists p, In p emergencySymptoms /\ occursIn p (toLowerCase m))
      \/ (exists w i, In w emergencyKeywords
                      /\ wholeWordAt w (toLowerCase m) i)
      -> detectIntent m = js "emergency").
  { intros m H. unfold detectIntent.
    destruct H as [H|H].
    - apply someEmergencySymptom_true in H. now rewrite H.
    - apply emergency_test in H. rewrite H, orb_true_r. reflexivity. }
  split; [apply Hmain|split].
  - intros Hascii [pre [post Hm]].
    assert (He : detectIntent message = js "emergency").
    { apply Hmain. left. exists (js "chest pain"). split.
      - now left.
      - rewrite (toLowerCase_ascii _ Hascii), Hm, !asciiLower_app.
        now exists (asciiLower pre), (asciiLower post). }
    split; [exact He|]. rewrite He. vm_compute. discriminate.
  - classify.
Qed.

(** The example of the specification, through [emergency_priority]. *)
Lemma emergency_priority_witness :
  @detectIntent asciiEngine
    (js "I have chest pain, can I book an appointment") = js "emergency".
Proof.
  apply (proj1 (emergency_priority asciiEngine
                  (js "I have chest pain, can I book an appointment"))).
  left. exists (js "chest pain"). split; [now left|].
  exists (js "i have "), (js ", can i book an appointment").
  vm_compute. reflexivity.
Defined.

Lemma detectIntent_label (E : JsEngine) (message : jsstring) :
  In (detectIntent message) intentLabels.
Proof.
  unfold detectIntent, intentLabels.
  repeat match goal with
         | |- context [if ?b then _ else _] => destruct b
         end; simpl; tauto.
Qed.

(** C2.  The classifier returns one label of the closed set of eight, and
    that label is [emergency] under the emergency override and otherwise
    the label of the first pattern that matches the lowercased message in
    the order greeting, book_appointment, doctor_search, faq_hours,
    symptom_triage, cancel_appointment, with [fallback] when none does. *)
Theorem detectIntent_contract (E : JsEngine) (message : jsstring) :
  In (detectIntent message) intentLabels
  /\ NoDup intentLabels
  /\ map fst orderedPatterns =
       [js "greeting"; js "book_appointment"; js "doctor_search";
        js "faq_hours"; js "symptom_triage"; js "cancel_appointment"]
  /\ detectIntent message =
       if someEmergencySymptom (toLowerCase message)
          || test intentPatterns.emergency (toLowerCase message)
       then js "emergency"
       else firstMatch orderedPatterns (toLowerCase message).
Proof.
  split; [|split; [|split]].
  - apply detectIntent_label.
  - unfold intentLabels.
    repeat (constructor;
            [simpl; intros H;
             repeat (destruct H as [H|H]; [vm_compute in H; discriminate|]);
             exact H|]).
    constructor.
  - reflexivity.
  - unfold detectIntent, firstMatch, orderedPatterns. reflexivity.
Qed.

(** C7.  The end-to-end examples of the specification. *)
Theorem detectIntent_examples (E : JsEngine) :
  detectIntent (js "I want to book an appointment") = js "book_appointment"
  /\ detectIntent (js "I have severe chest pain and need an appointment")
     = js "emergency"
  /\ detectIntent (js "I have severe chest pain and need an appointment")
     <> js "book_appointment"
  /\ detectIntent (js "hello") = js "greeting"
  /\ detectIntent (js "when do you open") = js "faq_hours"
  /\ detectIntent (js "xyz nonsense") = js "fallback".
Proof.
  repeat split; try classify.
  replace (detectIntent (js "I have severe chest pain and need an appointment"))
    with (js "emergency") by (symmetry; classify).
  vm_compute. discriminate.
Qed.

Lemma book_appointment_test (text : jsstring) :
  test intentPatterns.book_appointment text = true ->
  exists a t i j,
    In a actionWords /\ In t targetWords
    /\ wholeWordAt a text i /\ wholeWordAt t text j
    /\ i + length a < j.
Proof.
  change intentPatterns.book_appointment
    with (Cat (wordsPattern actionWords)
              (Cat (Star Any) (wordsPattern targetWords))).
  intros H. apply test_true in H as [i [j' [_ H]]].
  apply cat_ends in H as [k [Ha H]].
  apply cat_ends in H as [j [Hs Ht]].
  apply star_ends_later in Hs.
  apply wordsPattern_ends in Ha; [|reflexivity].
  apply wordsPattern_ends in Ht; [|reflexivity].
  destruct Ha as [a [Hina [-> Ha]]]. destruct Ht as [t [Hint [_ Ht]]].
  exists a, t, i, j.
  split; [exact Hina|]. split; [exact Hint|].
  split; [exact Ha|]. split; [exact Ht|].
  assert (Hwt : startsWithWordUnit t = true).
  { assert (Hall : forallb wordy targetWords = true) by reflexivity.
    rewrite forallb_forall in Hall. specialize (Hall t Hint).
    now apply andb_true_iff in Hall as [Hf _]. }
  destruct Ht as [Hr _]. destruct (readsAt_first_word Hr Hwt) as [Hw _].
  destruct Ha as [_ [_ Hn]].
  destruct (Nat.eq_dec (i + length a) j) as [<-|Hne]; [congruence|lia].
Qed.

(** C3.  The compound booking pattern: a message is labelled
    [book_appointment] only when its lowercased text holds an action word
    and, strictly later, a target word, both as whole words; the single
    word "appointment" is not labelled [book_appointment] and falls through
    every later pattern to [fallback]. *)
Theorem book_appointment_compound (E : JsEngine) (message : jsstring) :
  (detectIntent message = js "book_appointment" ->
   exists a t i j,
     In a actionWords /\ In t targetWords
     /\ wholeWordAt a (toLowerCase message) i
     /\ wholeWordAt t (toLowerCase message) j
     /\ i + length a < j)
  /\ test intentPatterns.book_appointment (js "appointment") = false
  /\ detectIntent (js "appointment") = js "fallback".
Proof.
  split; [|split].
  - unfold detectIntent. intros H. apply book_appointment_test.
    destruct (test intentPatterns.book_appointment (toLowerCase message));
      [reflexivity|].
    repeat match type of H with
           | (if ?b then _ else _) = _ => destruct b
           end; vm_compute in H; discriminate.
  - vm_compute. reflexivity.
  - classify.
Qed.

(** A booking message read through [book_appointment_compound]. *)
Lemma book_appointment_compound_witness :
  exists a t i j,
    In a actionWords /\ In t targetWords
    /\ wholeWordAt a (js "i want to book an appointment") i
    /\ wholeWordAt t (js "i want to book an appointment") j
    /\ i + length a < j.
Proof.
  apply (proj1 (book_appointment_compound asciiEngine
                  (js "I want to book an appointment"))).
  vm_compute. reflexivity.
Defined.

(** C9.  When the classifier labels a message [symptom_triage], the
    emergency-phrase check that the [symptom_triage] case repeats is false,
    so the case answers with the triage-deferral text and never with the
    emergency alert. *)
Theorem triage_recheck_is_dead (E : JsEngine) (message : jsstring)
  (supabaseClient : Client) (t : list Event) :
  detectIntent message = js "symptom_triage" ->
  someEmergencySymptom (toLowerCase message) = false
  /\ generateResponse (js "symptom_triage") message supabaseClient t
     = (Ok triageText, t)
  /\ triageText <> emergencyAlertText.
Proof.
  intros H.
  assert (Hs : someEmergencySymptom (toLowerCase message) = false).
  { unfold detectIntent in H.
    destruct (someEmergencySymptom (toLowerCase message)); [|reflexivity].
    simpl in H. vm_compute in H. discriminate. }
  split; [exact Hs|split].
  - unfold generateResponse.
    replace (jsstring_eqb (js "symptom_triage") (js "greeting"))
      with false by reflexivity.
    replace (jsstring_eqb (js "symptom_triage") (js "book_appointment"))
      with false by reflexivity.
    replace (jsstring_eqb (js "symptom_triage") (js "doctor_search"))
      with false by reflexivity.
    replace (jsstring_eqb (js "symptom_triage") (js "faq_hours"))
      with false by reflexivity.
    rewrite jsstring_eqb_refl, Hs. reflexivity.
  - vm_compute. discriminate.
Qed.

(** A fever message, labelled [symptom_triage], gets the triage text. *)
Lemma triage_recheck_is_dead_witness :
  @generateResponse asciiEngine (js "symptom_triage") (js "I have a fever")
    sampleClient [] = (Ok triageText, []).
Proof.
  apply (triage_recheck_is_dead asciiEngine (js "I have a fever")
           sampleClient []).
  vm_compute. reflexivity.
Defined.

(** ** Response generation *)

(** Deciding the [case] labels of a closed intent. *)
Ltac decide_cases :=
  repeat match goal with
         | |- context [jsstring_eqb (js ?a) (js ?b)] =>
             let v := eval vm_compute in (jsstring_eqb (js a) (js b)) in
             replace (jsstring_eqb (js a) (js b)) with v
               by (vm_compute; reflexivity);
             cbv iota
         end.

Lemma bookStep_entry (response : jsstring) (doc : Doctor) (idx : nat) :
  bookStep response doc idx = response ++ bookEntry (S idx) doc.
Proof.
  unfold bookStep, bookEntry.
  replace (Z.of_nat idx + 1)%Z with (Z.of_nat (S idx)) by lia.
  repeat rewrite <- app_assoc. reflexivity.
Qed.

Lemma forEach_bookStep (doctors : list Doctor) :
  forall idx response,
    forEach bookStep doctors idx response =
    response ++ concat (map (fun kd => bookEntry (fst kd) (snd kd))
                          (combine (seq (S idx) (length doctors)) doctors)).
Proof.
  induction doctors as [|doc doctors IH]; intros idx response; simpl.
  - now rewrite app_nil_r.
  - rewrite IH, bookStep_entry, <- app_assoc. reflexivity.
Qed.

Lemma numbered_nth (doctors : list Doctor) :
  forall a k doc,
    nth_error doctors k = Some doc ->
    nth_error (map (fun kd => bookEntry (fst kd) (snd kd))
                 (combine (seq a (length doctors)) doctors)) k
    = Some (bookEntry (a + k) doc).
Proof.
  induction doctors as [|d doctors IH]; intros a [|k] doc H;
    try discriminate; simpl in *.
  - injection H as ->. now rewrite Nat.add_0_r.
  - rewrite (IH (S a) k doc H). f_equal. f_equal. lia.
Qed.

Lemma bookEntries_length (doctors : list Doctor) :
  length (bookEntries doctors) = length doctors.
Proof.
  unfold bookEntries.
  rewrite length_map, length_combine, length_seq. apply Nat.min_id.
Qed.

(** C5.  The [book_appointment] case asks the directory for all doctors
    ordered by name; when the answer is [null] or empty the response is the
    unavailable-doctors text; otherwise it is the header, one entry per
    doctor numbered 1 to N in the order of the answer, each with the name,
    the specialty, the days joined by commas and the hours as
    [start:00 - end:00], and then the prompt. *)
Theorem book_appointment_response (E : JsEngine) (message : jsstring)
  (supabaseClient : Client) (t : list Event) :
  let query := order (js "name") (select (js "*") (from (js "doctors"))) in
  generateResponse (js "book_appointment") message supabaseClient t =
    (match supabaseClient query with
     | Throw e => Throw e
     | Ok None => Ok noDoctorsText
     | Ok (Some []) => Ok noDoctorsText
     | Ok (Some doctors) =>
         Ok (bookHeader ++ concat (bookEntries doctors) ++ bookPrompt)
     end, t ++ [EvQuery query])
  /\ (forall doctors, length (bookEntries doctors) = length doctors)
  /\ (forall doctors k doc,
        nth_error doctors k = Some doc ->
        nth_error (bookEntries doctors) k = Some (bookEntry (S k) doc)).
Proof.
  intros query. split; [|split].
  - unfold generateResponse. decide_cases. fold query.
    unfold await, bind, emit, liftExc, ret.
    destruct (supabaseClient query) as [[[|doc doctors]|]|e]; cbv beta iota.
    + reflexivity.
    + rewrite forEach_bookStep, <- app_assoc. reflexivity.
    + reflexivity.
    + reflexivity.
  - apply bookEntries_length.
  - intros doctors k doc H. apply (numbered_nth doctors 1 k H).
Qed.

(** The booking list of the sample directory, through
    [book_appointment_response]. *)
Lemma book_appointment_response_witness :
  fst (@generateResponse asciiEngine (js "book_appointment")
         (js "book a visit") sampleClient []) =
  Ok (js "I can help you book an appointment! Here are our available doctors:\n\n1. Dr. Dr. Michael Chen - Orthopedics\n   Available: Monday, Wednesday, Friday\n   Hours: 10:00 - 18:00\n\n2. Dr. Dr. Sarah Johnson - Cardiology\n   Available: Monday, Tuesday, Wednesday, Thursday, Friday\n   Hours: 9:00 - 17:00\n\nPlease specify which doctor you'd like to see, or let me know your preferred specialty and I'll help you find the right doctor.").
Proof.
  rewrite (proj1 (book_appointment_response asciiEngine (js "book a visit")
                    sampleClient [])).
  vm_compute. reflexivity.
Defined.

Lemma searchStep_entry (searchResponse : jsstring) (doc : Doctor)
  (idx : nat) :
  searchStep searchResponse doc idx = searchResponse ++ searchEntry doc.
Proof.
  unfold searchStep, searchEntry. repeat rewrite <- app_assoc. reflexivity.
Qed.

Lemma forEach_searchStep (doctors : list Doctor) :
  forall idx searchResponse,
    forEach searchStep doctors idx searchResponse =
    searchResponse ++ concat (map searchEntry doctors).
Proof.
  induction doctors as [|doc doctors IH]; intros idx searchResponse; simpl.
  - now rewrite app_nil_r.
  - rewrite IH, searchStep_entry, <- app_assoc. reflexivity.
Qed.

(** ** The reference directory *)

Lemma existsb_pointwise (A : Type) (f g : A -> bool) (l : list A) :
  (forall x, f x = g x) -> existsb f l = existsb g l.
Proof.
  intros H. induction l as [|x l IH]; simpl; [reflexivity|].
  now rewrite H, IH.
Qed.

Lemma like_wild (p s : jsstring) :
  like (37%N :: p) s
  = existsb (fun k => like p (skipn k s)) (seq 0 (S (length s))).
Proof. reflexivity. Qed.

Lemma like_any (s : jsstring) : like [37%N] s = true.
Proof.
  rewrite like_wild. apply existsb_exists. exists (length s). split.
  - apply in_seq. lia.
  - now rewrite skipn_all.
Qed.

Lemma like_plain_prefix (w : jsstring) :
  plainPattern w = true ->
  forall s, like (w ++ [37%N]) s = startsWith (asciiLower s) (asciiLower w).
Proof.
  induction w as [|c w IH]; intros Hw s.
  - apply like_any.
  - simpl in Hw. apply andb_true_iff in Hw as [Hc Hw].
    apply negb_true_iff in Hc.
    apply orb_false_iff in Hc as [Hc H92].
    apply orb_false_iff in Hc as [Hc H95].
    change ((c :: w) ++ [37%N]) with (c :: (w ++ [37%N])).
    cbn [like]. rewrite Hc, H95, H92.
    destruct s as [|d s]; [reflexivity|].
    rewrite (IH Hw). reflexivity.
Qed.

Lemma like_contains (w s : jsstring) :
  plainPattern w = true ->
  like (37%N :: w ++ [37%N]) s = containsNoCase s w.
Proof.
  intros Hw. unfold containsNoCase, includes, asciiLower.
  rewrite like_wild, length_map. apply existsb_pointwise. intros k.
  rewrite (like_plain_prefix w Hw). unfold asciiLower.
  now rewrite skipn_map.
Qed.

Lemma searchSpecialty_plain (E : JsEngine) (message : jsstring) :
  plainPattern (searchSpecialty message) = true.
Proof.
  unfold searchSpecialty.
  repeat match goal with
         | |- context [if ?b then _ else _] => destruct b
         end; reflexivity.
Qed.

Lemma directory_search (orderBy : jsstring -> list Doctor -> list Doctor)
  (table : list Doctor) (filter_ : jsstring) :
  plainPattern filter_ = true ->
  directoryClient orderBy table (searchQuery filter_)
  = Ok (Some (filterBySpecialty filter_ table)).
Proof.
  intros Hp. unfold directoryClient, searchQuery, filterBySpecialty.
  destruct filter_ as [|c f].
  - cbn [q_from q_ilike q_order select from].
    rewrite jsstring_eqb_refl. reflexivity.
  - cbn [q_from q_ilike q_order select from ilike].
    rewrite jsstring_eqb_refl. cbn [negb].
    replace (knownColumn (js "specialty")) with true
      by (vm_compute; reflexivity).
    f_equal. f_equal. apply filter_ext. intros d.
    unfold rowMatches, textColumn.
    replace (jsstring_eqb (js "specialty") (js "name")) with false
      by (vm_compute; reflexivity).
    rewrite jsstring_eqb_refl.
    change (js "%") with [37%N].
    change ([37%N] ++ (c :: f) ++ [37%N]) with (37%N :: (c :: f) ++ [37%N]).
    apply like_contains. exact Hp.
Qed.

(** C6.  The [doctor_search] case derives its filter from the lowercased
    message by the keyword table, the first keyword that occurs winning;
    it answers from the rows the directory returns for that filter, with
    the could-not-find text on [null] or no rows; a directory keeps the
    rows whose specialty contains the filter without regard to case, and
    all rows under the empty filter.  "find me a cardiologist" filters to
    Cardiology, "show me doctors" does not filter, and the could-not-find
    text names the five specialties. *)
Theorem doctor_search_filter (E : JsEngine) (message : jsstring)
  (t : list Event) :
  let filter_ := searchSpecialty message in
  filter_ = firstKeyword specialtyTable (toLowerCase message)
  /\ (forall supabaseClient,
        generateResponse (js "doctor_search") message supabaseClient t =
        (match supabaseClient (searchQuery filter_) with
         | Throw e => Throw e
         | Ok None => Ok notFoundText
         | Ok (Some rows) => Ok (searchAnswer filter_ rows)
         end, t ++ [EvQuery (searchQuery filter_)]))
  /\ (forall orderBy table,
        directoryClient orderBy table (searchQuery filter_)
        = Ok (Some (filterBySpecialty filter_ table)))
  /\ searchSpecialty (js "find me a cardiologist") = js "Cardiology"
  /\ searchSpecialty (js "show me doctors") = []
  /\ (forall table, filterBySpecialty [] table = table)
  /\ searchAnswer filter_ [] = notFoundText
  /\ forallb (fun kv => includes notFoundText (snd kv)) specialtyTable
     = true.
Proof.
  intros filter_.
  split; [|split; [|split; [|split; [|split; [|split; [|split]]]]]].
  - unfold filter_, searchSpecialty, firstKeyword, specialtyTable.
    cbn [find fst snd].
    repeat match goal with
           | |- context [if ?b then _ else _] => destruct b
           end; reflexivity.
  - intros supabaseClient. unfold generateResponse. decide_cases.
    cbv zeta. fold filter_. clearbody filter_.
    unfold await, bind, emit, liftExc, ret, searchAnswer.
    destruct (supabaseClient (searchQuery filter_)) as [[[|doc rows]|]|e];
      cbv beta iota.
    + reflexivity.
    + rewrite forEach_searchStep, <- app_assoc. reflexivity.
    + reflexivity.
    + reflexivity.
  - intros orderBy table. apply directory_search.
    apply searchSpecialty_plain.
  - unfold searchSpecialty. rewrite toLowerCase_ascii by reflexivity.
    vm_compute. reflexivity.
  - unfold searchSpecialty. rewrite toLowerCase_ascii by reflexivity.
    vm_compute. reflexivity.
  - intros table. reflexivity.
  - reflexivity.
  - vm_compute. reflexivity.
Qed.

(** The search for a cardiologist in the sample directory, through
    [doctor_search_filter]. *)
Lemma doctor_search_filter_witness :
  fst (@generateResponse asciiEngine (js "doctor_search")
         (js "find me a cardiologist") sampleClient []) =
  Ok (js "Here are our Cardiology specialists:\n\n• Dr. Dr. Sarah Johnson - Cardiology\n  Available: Monday, Tuesday, Wednesday, Thursday, Friday\n  Hours: 9:00 - 17:00\n\nWould you like to book an appointment with any of these doctors?").
Proof.
  rewrite (proj1 (proj2 (doctor_search_filter asciiEngine
                           (js "find me a cardiologist") [])) sampleClient).
  vm_compute. reflexivity.
Defined.

Lemma not_handled (intent label : jsstring) :
  ~ In intent handledIntents -> In label handledIntents ->
  jsstring_eqb intent label = false.
Proof.
  intros Hn Hin. apply jsstring_eqb_neq. intros ->. contradiction.
Qed.

(** C10.  [generateResponse] answers every intent string: one that is
    not among the seven handled labels, [fallback] and [error] included,
    gets the capability menu that begins "I'm not sure I understand"; and
    for every label other than [book_appointment] and [doctor_search] the
    answer is returned without an event and whatever the client is, so the
    directory is not read. *)
Theorem generateResponse_total (E : JsEngine) (intent message : jsstring)
  (t : list Event) :
  (~ In intent handledIntents ->
   forall supabaseClient,
     generateResponse intent message supabaseClient t = (Ok defaultText, t))
  /\ (forall supabaseClient,
        generateResponse (js "fallback") message supabaseClient t
        = (Ok defaultText, t))
  /\ (forall supabaseClient,
        generateResponse (js "error") message supabaseClient t
        = (Ok defaultText, t))
  /\ startsWith defaultText (js "I'm not sure I understand") = true
  /\ (intent <> js "book_appointment" -> intent <> js "doctor_search" ->
      exists text, forall supabaseClient,
        generateResponse intent message supabaseClient t = (Ok text, t)).
Proof.
  split; [|split; [|split; [|split]]].
  - intros Hn supabaseClient. unfold generateResponse.
    rewrite !(@not_handled intent _ Hn) by (simpl; tauto). reflexivity.
  - intros supabaseClient. unfold generateResponse. decide_cases.
    reflexivity.
  - intros supabaseClient. unfold generateResponse. decide_cases.
    reflexivity.
  - vm_compute. reflexivity.
  - intros Hb Hs. apply jsstring_eqb_neq in Hb, Hs.
    unfold generateResponse. rewrite Hb, Hs.
    repeat match goal with
           | |- context [if ?b then _ else _] => destruct b
           end; eexists; intros; reflexivity.
Qed.

(** The label [fallback] through [generateResponse_total]. *)
Lemma generateResponse_total_witness :
  @generateResponse asciiEngine (js "fallback") (js "xyz nonsense")
    sampleClient [] = (Ok defaultText, []).
Proof.
  apply (proj1 (generateResponse_total asciiEngine (js "fallback")
                  (js "xyz nonsense") [])).
  intros H. vm_compute in H.
  repeat (destruct H as [H|H]; [discriminate|]). exact H.
Defined.

(** ** The request boundary *)

Lemma detectIntent_not_error (E : JsEngine) (message : jsstring) :
  detectIntent message <> js "error".
Proof.
  intros H. pose proof (detectIntent_label E message) as Hin.
  rewrite H in Hin. vm_compute in Hin.
  repeat (destruct Hin as [Hin|Hin]; [discriminate|]). exact Hin.
Qed.

(** The [try] block, case by case. *)
Lemma tryBlock_cases (E : JsEngine) (w : World) (req : Request) :
  tryBlock w req [] =
  match json req with
  | Throw e => (Throw e, [])
  | Ok JNull => (Throw nullDestructureError, [])
  | Ok v =>
      if truthy (messageField v) then
        match createClient w with
        | Throw e => (Throw e, [EvCreateClient])
        | Ok supabaseClient =>
            match messageField v with
            | Some (JStr s) =>
                match generateResponse (detectIntent s) s supabaseClient
                        [EvCreateClient;
                         EvLog (js "Detected intent: " ++ detectIntent s
                                  ++ js " for message: " ++ s)] with
                | (Ok response, t) =>
                    (Ok {| status := 200;
                           headers := jsonHeaders;
                           body := Some (JObj
                             [(js "intent", JStr (detectIntent s));
                              (js "response", JStr response)]) |}, t)
                | (Throw e, t) => (Throw e, t)
                end
            | _ => (Throw notAFunctionError, [EvCreateClient])
            end
        end
      else (Ok badRequest, [])
  end.
Proof.
  unfold tryBlock, bind, liftExc.
  destruct (json req) as [v|e]; [|reflexivity].
  destruct v as [|b|x|s|l|l]; [reflexivity|..];
    (unfold destructureMessage, ret;
     destruct (truthy _); [|reflexivity];
     cbn [negb]; unfold emit; cbn [app];
     destruct (createClient w) as [supabaseClient|e]; [|reflexivity];
     unfold callDetectIntent, throw, ret;
     destruct (messageField _) as [[|b'|x'|s'|l'|l']|]; try reflexivity;
     cbn [app messageText];
     destruct (generateResponse _ _ _ _) as [[response|e] t'];
     reflexivity).
Qed.

Lemma serve_not_preflight (E : JsEngine) (w : World) (req : Request) :
  method req <> js "OPTIONS" ->
  serve w req =
  match tryBlock w req [] with
  | (Ok response, t) => (response, t)
  | (Throw error, t) => (catchBlock error, t ++ [EvError error])
  end.
Proof.
  intros H. apply jsstring_eqb_neq in H. unfold serve. now rewrite H.
Qed.

Lemma truthy_message_is_object (v : Json) :
  truthy (messageField v) = true -> v <> JNull.
Proof. intros H ->. discriminate. Qed.

(** C4, as the code has it.  A request that is not a preflight, whose body
    parses to a JSON value other than [null] and whose [message] is missing
    or empty (or another falsy value), is answered with status 400 and the
    payload [{error: "Message is required"}], and nothing else happens: no
    client is created, nothing is classified or logged, no query is sent.
    A message that is a non-empty string passes the check, blanks
    included. *)
Theorem empty_message_rejected (E : JsEngine) (w : World) (req : Request)
  (v : Json) :
  method req <> js "OPTIONS" ->
  json req = Ok v ->
  v <> JNull ->
  truthy (messageField v) = false ->
  serve w req = (badRequest, [])
  /\ status badRequest = 400%N
  /\ body badRequest
     = Some (JObj [(js "error", JStr (js "Message is required"))])
  /\ truthy None = false
  /\ truthy (Some (JStr [])) = false
  /\ (forall c s, truthy (Some (JStr (c :: s))) = true).
Proof.
  intros Hm Hj Hv Ht. split; [|repeat split].
  rewrite serve_not_preflight by exact Hm.
  rewrite tryBlock_cases, Hj, Ht.
  destruct v; try reflexivity. contradiction.
Qed.

(** A request without a [message], through [empty_message_rejected]. *)
Lemma empty_message_rejected_witness :
  @serve asciiEngine sampleWorld (postRequest (JObj [])) = (badRequest, []).
Proof.
  apply (@empty_message_rejected asciiEngine sampleWorld
           (postRequest (JObj [])) (JObj [])).
  - vm_compute. discriminate.
  - reflexivity.
  - discriminate.
  - reflexivity.
Defined.

(** C4, as the specification states it, fails on a message of blanks: it is
    accepted, classified as [fallback] and answered with status 200. *)
Lemma whitespace_message_accepted :
  @serve asciiEngine sampleWorld
    (postRequest (JObj [(js "message", JStr (js "   "))]))
  = ({| status := 200;
        headers := jsonHeaders;
        body := Some (JObj [(js "intent", JStr (js "fallback"));
                            (js "response", JStr defaultText)]) |},
     [EvCreateClient;
      EvLog (js "Detected intent: fallback for message:    ")]).
Proof. vm_compute. reflexivity. Qed.

Lemma generateResponse_fallback (E : JsEngine) (message : jsstring)
  (supabaseClient : Client) (t : list Event) :
  generateResponse (js "fallback") message supabaseClient t
  = (Ok defaultText, t).
Proof. unfold generateResponse. decide_cases. reflexivity. Qed.

(** The same request under any engine: the label is [fallback] and the
    status is 200. *)
Lemma whitespace_message_any_engine (E : JsEngine) :
  serve sampleWorld (postRequest (JObj [(js "message", JStr (js "   "))]))
  = ({| status := 200;
        headers := jsonHeaders;
        body := Some (JObj [(js "intent", JStr (js "fallback"));
                            (js "response", JStr defaultText)]) |},
     [EvCreateClient;
      EvLog (js "Detected intent: fallback for message:    ")]).
Proof.
  rewrite serve_not_preflight by (vm_compute; discriminate).
  rewrite tryBlock_cases.
  change (json (postRequest (JObj [(js "message", JStr (js "   "))])))
    with (Ok (JObj [(js "message", JStr (js "   "))])).
  cbv iota.
  replace (messageField (JObj [(js "message", JStr (js "   "))]))
    with (Some (JStr (js "   "))) by (vm_compute; reflexivity).
  replace (truthy (Some (JStr (js "   ")))) with true
    by (vm_compute; reflexivity).
  cbv iota. change (createClient sampleWorld) with (Ok sampleClient).
  cbv iota.
  replace (detectIntent (js "   ")) with (js "fallback")
    by (symmetry; classify).
  rewrite generateResponse_fallback.
  vm_compute. reflexivity.
Qed.

Lemma errorMessage_carries (error : Thrown) (c : N) (m : jsstring) :
  thrown_message error = Some (c :: m) -> errorMessage error = c :: m.
Proof. unfold errorMessage. now intros ->. Qed.

(** C8.  An accepted request (not a preflight, the body parsed, the
    message truthy) is answered in one of two ways.  Either the message is
    a string, the client was created and the response was generated: then
    the answer has status 200 and the payload [{intent, response}] with the
    label of the classifier.  Or something threw inside the [try] block:
    then the answer has status 500 and the payload carries the message of
    what was thrown, [intent: "error"] and the fixed apology, and the
    error is logged.  The classifier never returns the label [error]. *)
Theorem serve_result_contract (E : JsEngine) (w : World) (req : Request)
  (v : Json) :
  method req <> js "OPTIONS" ->
  json req = Ok v ->
  truthy (messageField v) = true ->
  ((exists s supabaseClient response t,
      messageField v = Some (JStr s)
      /\ createClient w = Ok supabaseClient
      /\ generateResponse (detectIntent s) s supabaseClient
           [EvCreateClient;
            EvLog (js "Detected intent: " ++ detectIntent s
                     ++ js " for message: " ++ s)]
         = (Ok response, t)
      /\ serve w req
         = ({| status := 200;
               headers := jsonHeaders;
               body := Some (JObj [(js "intent", JStr (detectIntent s));
                                   (js "response", JStr response)]) |}, t))
   \/ (exists error t,
         tryBlock w req [] = (Throw error, t)
         /\ serve w req
            = ({| status := 500;
                  headers := jsonHeaders;
                  body := Some (JObj
                    [(js "error", JStr (errorMessage error));
                     (js "intent", JStr (js "error"));
                     (js "response",
                      JStr (js "I'm sorry, I encountered an error processing your request. Please try again."))]) |},
               t ++ [EvError error])))
  /\ (forall error c m,
        thrown_message error = Some (c :: m) ->
        errorMessage error = c :: m)
  /\ (forall message, detectIntent message <> js "error").
Proof.
  intros Hm Hj Ht. split; [|split].
  - rewrite serve_not_preflight by exact Hm.
    pose proof (truthy_message_is_object Ht) as Hv.
    pose proof (tryBlock_cases E w req) as Hc. rewrite Hj, Ht in Hc.
    assert (Hc' : tryBlock w req [] =
      match createClient w with
      | Throw e => (Throw e, [EvCreateClient])
      | Ok supabaseClient =>
          match messageField v with
          | Some (JStr s) =>
              match generateResponse (detectIntent s) s supabaseClient
                      [EvCreateClient;
                       EvLog (js "Detected intent: " ++ detectIntent s
                                ++ js " for message: " ++ s)] with
              | (Ok response, t) =>
                  (Ok {| status := 200;
                         headers := jsonHeaders;
                         body := Some (JObj
                           [(js "intent", JStr (detectIntent s));
                            (js "response", JStr response)]) |}, t)
              | (Throw e, t) => (Throw e, t)
              end
          | _ => (Throw notAFunctionError, [EvCreateClient])
          end
      end).
    { rewrite Hc. destruct v; try reflexivity. contradiction. }
    clear Hc. rewrite Hc'.
    destruct (createClient w) as [supabaseClient|e].
    + destruct (messageField v) as [[|b|x|s|l|l]|] eqn:Hf;
        try (right; eexists; eexists; split; reflexivity).
      destruct (generateResponse _ _ _ _) as [[response|e] t'] eqn:Hg.
      * left. exists s, supabaseClient, response, t'.
        repeat split; assumption.
      * right. exists e, t'. split; reflexivity.
    + right. exists e, [EvCreateClient]. split; reflexivity.
  - intros error c m. apply errorMessage_carries.
  - apply detectIntent_not_error.
Qed.

(** A greeting through [serve_result_contract]: one of the two answers. *)
Lemma serve_result_contract_witness :
  (exists s supabaseClient response t,
      messageField (JObj [(js "message", JStr (js "hello"))])
      = Some (JStr s)
      /\ createClient sampleWorld = Ok supabaseClient
      /\ @generateResponse asciiEngine (@detectIntent asciiEngine s) s
           supabaseClient
           [EvCreateClient;
            EvLog (js "Detected intent: " ++ @detectIntent asciiEngine s
                     ++ js " for message: " ++ s)]
         = (Ok response, t)
      /\ @serve asciiEngine sampleWorld
           (postRequest (JObj [(js "message", JStr (js "hello"))]))
         = ({| status := 200;
               headers := jsonHeaders;
               body := Some (JObj
                 [(js "intent", JStr (@detectIntent asciiEngine s));
                  (js "response", JStr response)]) |}, t))
   \/ (exists error t,
         @tryBlock asciiEngine sampleWorld
           (postRequest (JObj [(js "message", JStr (js "hello"))])) []
         = (Throw error, t)
         /\ @serve asciiEngine sampleWorld
              (postRequest (JObj [(js "message", JStr (js "hello"))]))
            = ({| status := 500;
                  headers := jsonHeaders;
                  body := Some (JObj
                    [(js "error", JStr (errorMessage error));
                     (js "intent", JStr (js "error"));
                     (js "response",
                      JStr (js "I'm sorry, I encountered an error processing your request. Please try again."))]) |},
               t ++ [EvError error])).
Proof.
  apply (@serve_result_contract asciiEngine sampleWorld
           (postRequest (JObj [(js "message", JStr (js "hello"))]))
           (JObj [(js "message", JStr (js "hello"))])).
  - vm_compute. discriminate.
  - reflexivity.
  - vm_compute. reflexivity.
Defined.

(** The two answers on concrete requests: a greeting, and a message that
    is a number, which has no [toLowerCase]. *)
Lemma serve_examples :
  @serve asciiEngine sampleWorld
    (postRequest (JObj [(js "message", JStr (js "hello"))]))
  = ({| status := 200;
        headers := jsonHeaders;
        body := Some (JObj [(js "intent", JStr (js "greeting"));
                            (js "response", JStr greetingText)]) |},
     [EvCreateClient;
      EvLog (js "Detected intent: greeting for message: hello")])
  /\ @serve asciiEngine sampleWorld
       (postRequest (JObj [(js "message", JNum (S754_finite false 5 0))]))
     = ({| status := 500;
           headers := jsonHeaders;
           body := Some (JObj
             [(js "error", JStr (js "message.toLowerCase is not a function"));
              (js "intent", JStr (js "error"));
              (js "response",
               JStr (js "I'm sorry, I encountered an error processing your request. Please try again."))]) |},
        [EvCreateClient;
         EvError {| thrown_message :=
                      Some (js "message.toLowerCase is not a function") |}]).
Proof. split; vm_compute; reflexivity. Qed.

(** ** More on the request boundary *)

Lemma generateResponse_trace (E : JsEngine) (intent message : jsstring)
  (supabaseClient : Client) (t : list Event) :
  (exists r, generateResponse intent message supabaseClient t = (r, t))
  \/ (exists r q,
        generateResponse intent message supabaseClient t
        = (r, t ++ [EvQuery q])
        /\ (intent = js "book_appointment" \/ intent = js "doctor_search")).
Proof.
  unfold generateResponse.
  destruct (jsstring_eqb intent (js "greeting")); [left; eexists; reflexivity|].
  destruct (jsstring_eqb intent (js "book_appointment")) eqn:Hb.
  { right. apply jsstring_eqb_eq in Hb.
    unfold await, bind, emit, liftExc, ret.
    match goal with
    | |- context [supabaseClient ?q] =>
        destruct (supabaseClient q) as [[[|doc doctors]|]|e]
    end; eexists; eexists; (split; [reflexivity|now left]). }
  destruct (jsstring_eqb intent (js "doctor_search")) eqn:Hs.
  { right. apply jsstring_eqb_eq in Hs.
    unfold await, bind, emit, liftExc, ret.
    match goal with
    | |- context [supabaseClient ?q] =>
        destruct (supabaseClient q) as [[[|doc doctors]|]|e]
    end; eexists; eexists; (split; [reflexivity|now right]). }
  left.
  repeat match goal with
         | |- context [if ?b then _ else _] => destruct b
         end; eexists; reflexivity.
Qed.

Lemma tryBlock_accepted (E : JsEngine) (w : World) (req : Request)
  (v : Json) :
  json req = Ok v ->
  truthy (messageField v) = true ->
  tryBlock w req [] =
  match createClient w with
  | Throw e => (Throw e, [EvCreateClient])
  | Ok supabaseClient =>
      match messageField v with
      | Some (JStr s) =>
          match generateResponse (detectIntent s) s supabaseClient
                  [EvCreateClient;
                   EvLog (js "Detected intent: " ++ detectIntent s
                            ++ js " for message: " ++ s)] with
          | (Ok response, t) =>
              (Ok (okResponse (detectIntent s) response), t)
          | (Throw e, t) => (Throw e, t)
          end
      | _ => (Throw notAFunctionError, [EvCreateClient])
      end
  end.
Proof.
  intros Hj Ht. rewrite tryBlock_cases, Hj, Ht.
  destruct v; try reflexivity. discriminate.
Qed.

Lemma tryBlock_rejected (E : JsEngine) (w : World) (req : Request)
  (v : Json) :
  json req = Ok v ->
  truthy (messageField v) = false ->
  tryBlock w req [] =
  match v with
  | JNull => (Throw nullDestructureError, [])
  | _ => (Ok badRequest, [])
  end.
Proof.
  intros Hj Ht. rewrite tryBlock_cases, Hj, Ht.
  destruct v; reflexivity.
Qed.

(** The outcomes of the [try] block: the rejection, an answer, or a
    throw before or after the client was created or while the response was
    generated. *)
Lemma tryBlock_outcomes (E : JsEngine) (w : World) (req : Request) :
  tryBlock w req [] = (Ok badRequest, [])
  \/ (exists error, tryBlock w req [] = (Throw error, [])
                    \/ tryBlock w req [] = (Throw error, [EvCreateClient]))
  \/ (exists s supabaseClient result t v,
        json req = Ok v /\ messageField v = Some (JStr s)
        /\ createClient w = Ok supabaseClient
        /\ generateResponse (detectIntent s) s supabaseClient
             [EvCreateClient;
              EvLog (js "Detected intent: " ++ detectIntent s
                       ++ js " for message: " ++ s)]
           = (result, t)
        /\ tryBlock w req [] =
           match result with
           | Ok response => (Ok (okResponse (detectIntent s) response), t)
           | Throw error => (Throw error, t)
           end).
Proof.
  destruct (json req) as [v|e] eqn:Hj.
  2:{ right. left. exists e. left. rewrite tryBlock_cases, Hj. reflexivity. }
  destruct (truthy (messageField v)) eqn:Ht.
  - rewrite (@tryBlock_accepted E w req v Hj Ht).
    destruct (createClient w) as [supabaseClient|e].
    + destruct (messageField v) as [[|b|x|s|l|l]|] eqn:Hf;
        try (right; left; exists notAFunctionError; right; reflexivity).
      destruct (generateResponse _ _ _ _) as [result t'] eqn:Hg.
      right. right. exists s, supabaseClient, result, t', v.
      repeat split; try assumption.
    + right. left. exists e. right. reflexivity.
  - rewrite (@tryBlock_rejected E w req v Hj Ht). destruct v; auto.
    right. left. exists nullDestructureError. left. reflexivity.
Qed.

Lemma detectIntent_empty (E : JsEngine) : detectIntent [] = js "fallback".
Proof.
  unfold detectIntent.
  rewrite toLowerCase_ascii by reflexivity. vm_compute. reflexivity.
Qed.

(** X1.  Whatever the request, the answer carries the two CORS headers
    first and its status is 200, 400 or 500; a preflight request is
    answered with status 200, the CORS headers alone and no body, and
    nothing else happens, whatever its body is. *)
Theorem serve_always_cors (E : JsEngine) (w : World) (req : Request) :
  (exists extra, headers (fst (serve w req)) = corsHeaders ++ extra)
  /\ (status (fst (serve w req)) = 200%N
      \/ status (fst (serve w req)) = 400%N
      \/ status (fst (serve w req)) = 500%N)
  /\ (method req = js "OPTIONS" -> serve w req = (preflightResponse, [])).
Proof.
  assert (Hpre : method req = js "OPTIONS" ->
                 serve w req = (preflightResponse, [])).
  { intros H. unfold serve. rewrite H, jsstring_eqb_refl. reflexivity. }
  destruct (list_eq_dec N.eq_dec (method req) (js "OPTIONS")) as [Ho|Ho].
  - rewrite (Hpre Ho). repeat split; auto.
    exists []. symmetry. apply app_nil_r.
  - split; [|split; [|exact Hpre]];
      rewrite serve_not_preflight by exact Ho;
      destruct (tryBlock_outcomes E w req)
        as [H|[[e [H|H]]|(s & c & result & t & v & _ & _ & _ & _ & H)]];
      rewrite H; try destruct result;
      cbn [fst headers status catchBlock okResponse badRequest];
      auto;
      exists [(js "Content-Type", js "application/json")]; reflexivity.
Qed.

(** X2.  A body that cannot be parsed, or that is the JSON value [null],
    is not rejected as a bad request: the throw is caught and answered
    with status 500, and no client is created. *)
Theorem broken_body_is_server_error (E : JsEngine) (w : World)
  (req : Request) (error : Thrown) :
  method req <> js "OPTIONS" ->
  json req = Throw error
  \/ (json req = Ok JNull /\ error = nullDestructureError) ->
  serve w req = (catchBlock error, [EvError error])
  /\ status (catchBlock error) = 500%N.
Proof.
  intros Hm Hj. split; [|reflexivity].
  rewrite serve_not_preflight by exact Hm. rewrite tryBlock_cases.
  destruct Hj as [Hj|[Hj ->]]; rewrite Hj; reflexivity.
Qed.

(** A truncated body, through [broken_body_is_server_error]. *)
Lemma broken_body_is_server_error_witness :
  @serve asciiEngine sampleWorld
    {| method := js "POST";
       json := Throw {| thrown_message :=
                          Some (js "Unexpected end of JSON input") |} |}
  = (catchBlock {| thrown_message :=
                     Some (js "Unexpected end of JSON input") |},
     [EvError {| thrown_message :=
                   Some (js "Unexpected end of JSON input") |}])
  /\ status (catchBlock {| thrown_message :=
                             Some (js "Unexpected end of JSON input") |})
     = 500%N.
Proof.
  apply (@broken_body_is_server_error asciiEngine sampleWorld).
  - vm_compute. discriminate.
  - left. reflexivity.
Defined.

(** X3.  A message that is truthy but not a string (a number, [true], an
    array, an object) passes the required-field check, the client is
    created, and the call of [toLowerCase] throws: the answer is the 500 of
    the catch block, and no query is sent. *)
Theorem non_string_message_is_server_error (E : JsEngine) (w : World)
  (req : Request) (v m : Json) :
  method req <> js "OPTIONS" ->
  json req = Ok v ->
  messageField v = Some m ->
  truthy (Some m) = true ->
  (forall s, m <> JStr s) ->
  serve w req =
  match createClient w with
  | Ok _ => (catchBlock notAFunctionError,
             [EvCreateClient; EvError notAFunctionError])
  | Throw e => (catchBlock e, [EvCreateClient; EvError e])
  end.
Proof.
  intros Hm Hj Hf Ht Hs.
  rewrite serve_not_preflight by exact Hm.
  rewrite (@tryBlock_accepted E w req v Hj) by (rewrite Hf; exact Ht).
  rewrite Hf.
  destruct (createClient w) as [c|e]; [|reflexivity].
  destruct m; try reflexivity. now elim (Hs s).
Qed.

(** The message [true], through [non_string_message_is_server_error]. *)
Lemma non_string_message_is_server_error_witness :
  @serve asciiEngine sampleWorld
    (postRequest (JObj [(js "message", JBool true)]))
  = (catchBlock (@notAFunctionError asciiEngine),
     [EvCreateClient; EvError (@notAFunctionError asciiEngine)]).
Proof.
  apply (@non_string_message_is_server_error asciiEngine sampleWorld
           (postRequest (JObj [(js "message", JBool true)]))
           (JObj [(js "message", JBool true)]) (JBool true)).
  - vm_compute. discriminate.
  - reflexivity.
  - vm_compute. reflexivity.
  - reflexivity.
  - discriminate.
Defined.

(** X4.  A request reads the directory at most once, and it reads it only
    when its message is a string that the classifier labels
    [book_appointment] or [doctor_search]. *)
Theorem at_most_one_query (E : JsEngine) (w : World) (req : Request) :
  length (filter isQuery (snd (serve w req))) <= 1
  /\ (forall q, In (EvQuery q) (snd (serve w req)) ->
      exists v s,
        json req = Ok v /\ messageField v = Some (JStr s)
        /\ (detectIntent s = js "book_appointment"
            \/ detectIntent s = js "doctor_search")).
Proof.
  unfold serve. destruct (jsstring_eqb (method req) (js "OPTIONS")).
  { split; [simpl; lia|intros q []]. }
  destruct (tryBlock_outcomes E w req)
    as [H|[[e [H|H]]|(s & c & result & t & v & Hj & Hf & _ & Hg & H)]];
    rewrite H; clear H.
  - split; [simpl; lia|intros q []].
  - split; [simpl; lia|].
    intros q [Hq|[]]. discriminate.
  - split; [simpl; lia|].
    intros q [Hq|[Hq|[]]]; discriminate.
  - destruct (generateResponse_trace E (detectIntent s) s c
                [EvCreateClient;
                 EvLog (js "Detected intent: " ++ detectIntent s
                          ++ js " for message: " ++ s)])
      as [[r Hr]|[r [q0 [Hr Hi]]]];
      rewrite Hr in Hg; injection Hg as <- <-.
    + destruct r; cbn [snd]; rewrite ?filter_app;
        cbn [filter isQuery length app]; (split; [lia|]);
        intros q Hq; rewrite ?in_app_iff in Hq; cbn [In] in Hq;
        repeat (destruct Hq as [Hq|Hq]; try discriminate; try contradiction).
    + destruct r; cbn [snd]; rewrite ?filter_app;
        cbn [filter isQuery length app]; (split; [lia|]);
        intros q _; exists v, s; auto.
Qed.

(** X5.  An emergency message is answered with the emergency text without
    a directory read, whatever the directory client would do; but the
    client is created before the message is classified, so when its
    creation throws even an emergency message gets the 500 apology. *)
Theorem emergency_answer (E : JsEngine) (w : World) (req : Request)
  (v : Json) (s : jsstring) :
  method req <> js "OPTIONS" ->
  json req = Ok v ->
  messageField v = Some (JStr s) ->
  detectIntent s = js "emergency" ->
  serve w req =
  match createClient w with
  | Ok _ =>
      (okResponse (js "emergency") emergencyText,
       [EvCreateClient;
        EvLog (js "Detected intent: " ++ js "emergency"
                 ++ js " for message: " ++ s)])
  | Throw e => (catchBlock e, [EvCreateClient; EvError e])
  end.
Proof.
  intros Hm Hj Hf He.
  assert (Hs : truthy (messageField v) = true).
  { rewrite Hf. destruct s; [|reflexivity].
    rewrite detectIntent_empty in He. vm_compute in He. discriminate. }
  rewrite serve_not_preflight by exact Hm.
  rewrite (@tryBlock_accepted E w req v Hj Hs), Hf, He.
  destruct (createClient w) as [c|e]; [|reflexivity].
  unfold generateResponse. decide_cases. reflexivity.
Qed.

(** A chest-pain message, through [emergency_answer]. *)
Lemma emergency_answer_witness :
  @serve asciiEngine sampleWorld
    (postRequest (JObj [(js "message", JStr (js "I have chest pain"))]))
  = (okResponse (js "emergency") emergencyText,
     [EvCreateClient;
      EvLog (js "Detected intent: " ++ js "emergency"
               ++ js " for message: " ++ js "I have chest pain")]).
Proof.
  apply (@emergency_answer asciiEngine sampleWorld
           (postRequest (JObj [(js "message", JStr (js "I have chest pain"))]))
           (JObj [(js "message", JStr (js "I have chest pain"))])
           (js "I have chest pain")).
  - vm_compute. discriminate.
  - reflexivity.
  - vm_compute. reflexivity.
  - vm_compute. reflexivity.
Defined.

(** ** More on the classifier *)

Lemma any_star_run (s : jsstring) (fuel : nat) :
  forall i j, In j (star_ends (ends Any s) fuel i) -> sameLine s i j.
Proof.
  induction fuel as [|f IH]; intros i j; simpl star_ends.
  - intros [<-|[]] k Hk. lia.
  - rewrite in_app_iff, in_flat_map.
    intros [[k0 [Hk0 H]]|[<-|[]]] k Hk; [|lia].
    apply filter_In in Hk0 as [Hk0 _]. simpl in Hk0.
    destruct (nth_error s i) as [d|] eqn:Hd; [|contradiction].
    destruct (isLineTerminator d) eqn:Hl; [contradiction|].
    destruct Hk0 as [<-|[]].
    destruct (Nat.eq_dec k i) as [->|Hne]; [eauto|].
    apply (IH _ _ H). lia.
Qed.

Lemma any_star_reach (s : jsstring) (fuel : nat) :
  forall i j,
    i <= j -> j - i <= fuel -> sameLine s i j ->
    In j (star_ends (ends Any s) fuel i).
Proof.
  induction fuel as [|f IH]; intros i j Hij Hf Hl; simpl star_ends.
  - left. lia.
  - apply in_app_iff. destruct (Nat.eq_dec i j) as [->|Hne].
    + right. now left.
    + left. apply in_flat_map. exists (S i). split.
      * apply filter_In. split; [|apply Nat.ltb_lt; lia].
        destruct (Hl i) as [d [Hd Ht]]; [lia|].
        simpl. rewrite Hd, Ht. now left.
      * apply IH; [lia|lia|]. intros k Hk. apply Hl. lia.
Qed.

Lemma wholeWordAt_bounds (w text : jsstring) (i : nat) :
  wholeWordAt w text i -> wordy w = true -> i + length w <= length text.
Proof.
  intros [Hr _] Hw. apply andb_true_iff in Hw as [Hf _].
  destruct (readsAt_first_word Hr Hf) as [_ Hi].
  unfold readsAt in Hr. apply (f_equal (@length N)) in Hr.
  rewrite !length_map, length_firstn, length_skipn in Hr. lia.
Qed.

Lemma compound_test (a0 t0 : jsstring) (first second : list jsstring)
  (text : jsstring) :
  forallb wordy (a0 :: first) = true ->
  forallb wordy (t0 :: second) = true ->
  test (Cat (wordsPattern (a0 :: first))
            (Cat (Star Any) (wordsPattern (t0 :: second)))) text = true
  <-> compoundOccurs (a0 :: first) (t0 :: second) text.
Proof.
  intros Hfirst Hsecond. rewrite test_true. split.
  - intros [i [j' [_ H]]].
    apply cat_ends in H as [k [Ha H]].
    apply cat_ends in H as [j [Hs Ht]].
    pose proof (star_ends_later _ _ _ _ Hs) as Hle.
    apply any_star_run in Hs.
    apply wordsPattern_ends in Ha; [|exact Hfirst].
    apply wordsPattern_ends in Ht; [|exact Hsecond].
    destruct Ha as [a [Hina [-> Ha]]]. destruct Ht as [t [Hint [_ Ht]]].
    exists a, t, i, j.
    split; [exact Hina|]. split; [exact Hint|].
    split; [exact Ha|]. split; [exact Ht|]. split; [|exact Hs].
    assert (Hwt : startsWithWordUnit t = true).
    { rewrite forallb_forall in Hsecond. specialize (Hsecond t Hint).
      now apply andb_true_iff in Hsecond as [Hf _]. }
    destruct Ht as [Hr _]. destruct (readsAt_first_word Hr Hwt) as [Hw _].
    destruct Ha as [_ [_ Hn]].
    destruct (Nat.eq_dec (i + length a) j) as [<-|Hne]; [congruence|lia].
  - intros (a & t & i & j & Hina & Hint & Ha & Ht & Hlt & Hl).
    assert (Hba : i + length a <= length text).
    { apply wholeWordAt_bounds; [exact Ha|].
      rewrite forallb_forall in Hfirst. now apply Hfirst. }
    assert (Hbt : j + length t <= length text).
    { apply wholeWordAt_bounds; [exact Ht|].
      rewrite forallb_forall in Hsecond. now apply Hsecond. }
    exists i, (j + length t). split; [lia|].
    apply cat_ends. exists (i + length a). split.
    + apply wordsPattern_ends; [exact Hfirst|]. eauto.
    + apply cat_ends. exists j. split.
      * apply any_star_reach; [lia|lia|exact Hl].
      * apply wordsPattern_ends; [exact Hsecond|]. eauto.
Qed.

(** X6.  The booking pattern matches a text exactly when an action word
    stands in it as a whole word and, later on the same line, a target
    word does; the cancel pattern likewise, with cancel/remove and then
    appointment/booking.  A line break between the two words prevents the
    match. *)
Theorem compound_patterns_exact (text : jsstring) :
  (test intentPatterns.book_appointment text = true
   <-> compoundOccurs actionWords targetWords text)
  /\ (test intentPatterns.cancel_appointment text = true
      <-> compoundOccurs cancelWords bookingWords text).
Proof.
  split.
  - change intentPatterns.book_appointment
      with (Cat (wordsPattern actionWords)
                (Cat (Star Any) (wordsPattern targetWords))).
    apply compound_test; reflexivity.
  - change intentPatterns.cancel_appointment
      with (Cat (wordsPattern cancelWords)
                (Cat (Star Any) (wordsPattern bookingWords))).
    apply compound_test; reflexivity.
Qed.

Lemma noEmergency_false (text : jsstring) :
  noEmergency text <->
  someEmergencySymptom text || test intentPatterns.emergency text = false.
Proof.
  unfold noEmergency. rewrite orb_false_iff. split.
  - intros [Hp Hw]. split.
    + destruct (someEmergencySymptom text) eqn:H; [|reflexivity].
      apply someEmergencySymptom_true in H as [p [Hin H]].
      now elim (Hp p Hin).
    + destruct (test intentPatterns.emergency text) eqn:H; [|reflexivity].
      apply emergency_test in H as [w [i [Hin H]]].
      now elim (Hw w i Hin).
  - intros [Hs Ht]. split.
    + intros p Hin H.
      assert (someEmergencySymptom text = true)
        by (apply someEmergencySymptom_true; eauto).
      congruence.
    + intros w i Hin H.
      assert (test intentPatterns.emergency text = true)
        by (apply emergency_test; eauto).
      congruence.
Qed.

(** X7.  A message is labelled [greeting] exactly when its lowercased text
    carries no emergency language and holds a greeting word as a whole
    word: a greeting wins over any booking, search, hours, symptom or
    cancel language that follows it. *)
Theorem greeting_exact (E : JsEngine) (message : jsstring) :
  detectIntent message = js "greeting" <->
  noEmergency (toLowerCase message)
  /\ exists w i, In w greetingWords
                 /\ wholeWordAt w (toLowerCase message) i.
Proof.
  rewrite noEmergency_false.
  change greetingWords
    with [js "hi"; js "hello"; js "hey"; js "good morning";
          js "good afternoon"; js "good evening"].
  rewrite <- (@wordsPattern_test (js "hi")
                [js "hello"; js "hey"; js "good morning";
                 js "good afternoon"; js "good evening"]
                (toLowerCase message) eq_refl).
  change (wordsPattern
            [js "hi"; js "hello"; js "hey"; js "good morning";
             js "good afternoon"; js "good evening"])
    with intentPatterns.greeting.
  unfold detectIntent.
  destruct (someEmergencySymptom (toLowerCase message)
            || test intentPatterns.emergency (toLowerCase message)).
  - split; [intros H; vm_compute in H; discriminate|intros [H _]; discriminate].
  - destruct (test intentPatterns.greeting (toLowerCase message)).
    + split; auto.
    + split; [|intros [_ H]; discriminate].
      intros H.
      repeat match type of H with
             | (if ?b then _ else _) = _ => destruct b
             end; vm_compute in H; discriminate.
Qed.

(** X8.  Every label of the closed set is reached: for each of the eight
    there is a message that the classifier gives it. *)
Theorem every_label_reachable (E : JsEngine) (label : jsstring) :
  In label intentLabels -> exists message, detectIntent message = label.
Proof.
  unfold intentLabels. cbn [In].
  intros [<-|[<-|[<-|[<-|[<-|[<-|[<-|[<-|[]]]]]]]]].
  - exists (js "hello"). classify.
  - exists (js "book a doctor"). classify.
  - exists (js "find"). classify.
  - exists (js "when"). classify.
  - exists (js "fever"). classify.
  - exists (js "cancel my booking"). classify.
  - exists (js "urgent"). classify.
  - exists []. classify.
Qed.

(** The label [cancel_appointment], through [every_label_reachable]. *)
Lemma every_label_reachable_witness :
  exists message, @detectIntent asciiEngine message = js "cancel_appointment".
Proof.
  apply (@every_label_reachable asciiEngine (js "cancel_appointment")).
  vm_compute. tauto.
Defined.

(** X9.  The quick-reply buttons of the chat page and the classifier
    agree: the four captions are labelled [book_appointment], [faq_hours],
    [doctor_search] and [emergency], and none falls to [fallback]. *)
Theorem quickReplies_classified (E : JsEngine) :
  map detectIntent quickReplies
  = [js "book_appointment"; js "faq_hours"; js "doctor_search";
     js "emergency"].
Proof.
  unfold quickReplies. cbn [map].
  do 3 (f_equal; [classify|]). f_equal. classify.
Qed.

(** ** More on response generation *)

Lemma occursIn_app_l (p a b : jsstring) : occursIn p a -> occursIn p (a ++ b).
Proof.
  intros [pre [post ->]]. exists pre, (post ++ b).
  now rewrite <- !app_assoc.
Qed.

Lemma occursIn_app_r (p a b : jsstring) : occursIn p b -> occursIn p (a ++ b).
Proof.
  intros [pre [post ->]]. exists (a ++ pre), post.
  now rewrite <- !app_assoc.
Qed.

Lemma occursIn_here (p b : jsstring) : occursIn p (p ++ b).
Proof. now exists [], b. Qed.

Lemma occursIn_concat (p x : jsstring) (l : list jsstring) :
  In x l -> occursIn p x -> occursIn p (concat l).
Proof.
  induction l as [|y l IH]; intros Hin Hp; [contradiction|].
  destruct Hin as [->|Hin]; simpl.
  - now apply occursIn_app_l.
  - apply occursIn_app_r. now apply IH.
Qed.

Lemma bookEntry_shows (k : nat) (doc : Doctor) :
  occursIn (name doc) (bookEntry k doc)
  /\ occursIn (specialty doc) (bookEntry k doc)
  /\ occursIn (join (js ", ") (days doc)) (bookEntry k doc).
Proof.
  unfold bookEntry. repeat split.
  - do 2 apply occursIn_app_r. apply occursIn_here.
  - do 4 apply occursIn_app_r. apply occursIn_here.
  - do 7 apply occursIn_app_r. apply occursIn_here.
Qed.

Lemma searchEntry_shows (doc : Doctor) :
  occursIn (name doc) (searchEntry doc)
  /\ occursIn (specialty doc) (searchEntry doc)
  /\ occursIn (join (js ", ") (days doc)) (searchEntry doc).
Proof.
  unfold searchEntry. repeat split.
  - do 1 apply occursIn_app_r. apply occursIn_here.
  - do 3 apply occursIn_app_r. apply occursIn_here.
  - do 6 apply occursIn_app_r. apply occursIn_here.
Qed.

Lemma numbered_in (doctors : list Doctor) (doc : Doctor) :
  forall a, In doc doctors ->
    exists k,
      In (bookEntry k doc)
         (map (fun kd => bookEntry (fst kd) (snd kd))
            (combine (seq a (length doctors)) doctors)).
Proof.
  induction doctors as [|d doctors IH]; intros a Hin; [contradiction|].
  destruct Hin as [->|Hin]; simpl.
  - exists a. now left.
  - destruct (IH (S a) Hin) as [k Hk]. exists k. now right.
Qed.

Lemma book_appointment_text (E : JsEngine) (message : jsstring)
  (supabaseClient : Client) (t : list Event) (doc : Doctor)
  (doctors : list Doctor) :
  supabaseClient bookQuery = Ok (Some (doc :: doctors)) ->
  generateResponse (js "book_appointment") message supabaseClient t
  = (Ok (bookHeader ++ concat (bookEntries (doc :: doctors)) ++ bookPrompt),
     t ++ [EvQuery bookQuery]).
Proof.
  intros H. unfold generateResponse. decide_cases. fold bookQuery.
  unfold await, bind, emit, liftExc, ret. rewrite H. cbv beta iota.
  rewrite forEach_bookStep, <- app_assoc. reflexivity.
Qed.

Lemma doctor_search_text (E : JsEngine) (message : jsstring)
  (supabaseClient : Client) (t : list Event) (doc : Doctor)
  (doctors : list Doctor) :
  supabaseClient (searchQuery (searchSpecialty message))
  = Ok (Some (doc :: doctors)) ->
  generateResponse (js "doctor_search") message supabaseClient t
  = (Ok (searchAnswer (searchSpecialty message) (doc :: doctors)),
     t ++ [EvQuery (searchQuery (searchSpecialty message))]).
Proof.
  intros H. unfold generateResponse. decide_cases. cbv zeta.
  unfold await, bind, emit, liftExc, ret, searchAnswer.
  rewrite H. cbv beta iota.
  rewrite forEach_searchStep, <- app_assoc. reflexivity.
Qed.

(** X10.  No doctor is dropped from a listing: every doctor the directory
    returns for the booking query, or for the search query, appears in the
    response with the name, the specialty and the days joined by commas. *)
Theorem every_doctor_listed (E : JsEngine) (message : jsstring)
  (supabaseClient : Client) (t : list Event) (doctors : list Doctor)
  (doc : Doctor) :
  In doc doctors ->
  (supabaseClient bookQuery = Ok (Some doctors) ->
   exists text,
     generateResponse (js "book_appointment") message supabaseClient t
     = (Ok text, t ++ [EvQuery bookQuery])
     /\ occursIn (name doc) text /\ occursIn (specialty doc) text
     /\ occursIn (join (js ", ") (days doc)) text)
  /\ (supabaseClient (searchQuery (searchSpecialty message))
      = Ok (Some doctors) ->
      exists text,
        generateResponse (js "doctor_search") message supabaseClient t
        = (Ok text, t ++ [EvQuery (searchQuery (searchSpecialty message))])
        /\ occursIn (name doc) text /\ occursIn (specialty doc) text
        /\ occursIn (join (js ", ") (days doc)) text).
Proof.
  intros Hin. split; intros H.
  - destruct doctors as [|d0 ds]; [contradiction|].
    eexists. split; [apply (book_appointment_text E message _ t H)|].
    destruct (numbered_in (d0 :: ds) doc 1 Hin) as [k Hk].
    destruct (bookEntry_shows k doc) as [Hn [Hs Hd]].
    repeat split; apply occursIn_app_r, occursIn_app_l;
      apply (occursIn_concat _ Hk); assumption.
  - destruct doctors as [|d0 ds]; [contradiction|].
    eexists. split; [apply (doctor_search_text E message _ t H)|].
    destruct (searchEntry_shows doc) as [Hn [Hs Hd]].
    assert (Hk : In (searchEntry doc) (map searchEntry (d0 :: ds)))
      by now apply in_map.
    unfold searchAnswer.
    repeat split; apply occursIn_app_r, occursIn_app_l;
      apply (occursIn_concat _ Hk); assumption.
Qed.

(** The cardiologist of the sample directory in the booking list, through
    [every_doctor_listed]. *)
Lemma every_doctor_listed_witness :
  exists text,
    @generateResponse asciiEngine (js "book_appointment") (js "book a visit")
      sampleClient []
    = (Ok text, [] ++ [EvQuery bookQuery])
    /\ occursIn (name sampleCardiologist) text
    /\ occursIn (specialty sampleCardiologist) text
    /\ occursIn (join (js ", ") (days sampleCardiologist)) text.
Proof.
  apply (proj1 (@every_doctor_listed asciiEngine (js "book a visit")
                  sampleClient [] sampleDoctors sampleCardiologist
                  (or_intror (or_introl eq_refl)))).
  vm_compute. reflexivity.
Defined.

Lemma app_starts_r (a b : jsstring) :
  (exists c rest, b = c :: rest) -> exists c rest, a ++ b = c :: rest.
Proof.
  intros [c [rest ->]]. destruct a as [|d a]; simpl; eauto.
Qed.

(** Closing a case whose text is a constant. *)
Ltac constant_text :=
  let H := fresh in
  intros H; injection H as <- _; vm_compute; do 2 eexists; reflexivity.

(** X11.  A response that is returned is never the empty text, whatever
    the intent string, the message and the directory's answer. *)
Theorem response_never_empty (E : JsEngine) (intent message : jsstring)
  (supabaseClient : Client) (t t' : list Event) (text : jsstring) :
  generateResponse intent message supabaseClient t = (Ok text, t') ->
  exists c rest, text = c :: rest.
Proof.
  unfold generateResponse, await, bind, emit, liftExc, ret.
  destruct (jsstring_eqb intent (js "greeting")); [constant_text|].
  destruct (jsstring_eqb intent (js "book_appointment")).
  { match goal with
    | |- context [supabaseClient ?q] =>
        destruct (supabaseClient q) as [[[|doc doctors]|]|e]
    end; cbv beta iota.
    - constant_text.
    - intros H. injection H as <- _. apply app_starts_r.
      vm_compute. do 2 eexists. reflexivity.
    - constant_text.
    - discriminate. }
  destruct (jsstring_eqb intent (js "doctor_search")).
  { match goal with
    | |- context [supabaseClient ?q] =>
        destruct (supabaseClient q) as [[[|doc doctors]|]|e]
    end; cbv beta iota.
    - constant_text.
    - intros H. injection H as <- _. apply app_starts_r.
      vm_compute. do 2 eexists. reflexivity.
    - constant_text.
    - discriminate. }
  destruct (jsstring_eqb intent (js "faq_hours")); [constant_text|].
  destruct (jsstring_eqb intent (js "symptom_triage")).
  { destruct (someEmergencySymptom (toLowerCase message)); constant_text. }
  destruct (jsstring_eqb intent (js "cancel_appointment")); [constant_text|].
  destruct (jsstring_eqb intent (js "emergency")); constant_text.
Qed.

(** The hours text, through [response_never_empty]. *)
Lemma response_never_empty_witness :
  exists c rest, hoursText = c :: rest.
Proof.
  apply (@response_never_empty asciiEngine (js "faq_hours")
           (js "when do you open") sampleClient [] [] hoursText).
  vm_compute. reflexivity.
Defined.

(** ** The chat page *)

Lemma trimStart_blank (s : jsstring) :
  forallb isWhiteSpace s = true -> trimStart s = [].
Proof.
  induction s as [|c s IH]; simpl; [reflexivity|].
  intros H. apply andb_true_iff in H as [Hc Hs]. rewrite Hc. now apply IH.
Qed.

Lemma trim_blank (s : jsstring) :
  forallb isWhiteSpace s = true -> trim s = [].
Proof.
  intros H. unfold trim. rewrite (trimStart_blank s H). reflexivity.
Qed.

Lemma trimStart_split (s : jsstring) :
  exists ws, s = ws ++ trimStart s /\ forallb isWhiteSpace ws = true.
Proof.
  induction s as [|c s [ws [Hs Hws]]]; simpl.
  - now exists [].
  - destruct (isWhiteSpace c) eqn:Hc.
    + exists (c :: ws). simpl. rewrite Hc, Hws. split; [|reflexivity].
      now rewrite <- Hs.
    + now exists [].
Qed.

Lemma trimStart_head (s : jsstring) (c : N) (r : jsstring) :
  trimStart s = c :: r -> isWhiteSpace c = false.
Proof.
  induction s as [|d s IH]; simpl; [discriminate|].
  destruct (isWhiteSpace d) eqn:Hd; [exact IH|].
  intros H. injection H as <- _. exact Hd.
Qed.

Lemma trim_ends (s : jsstring) (c : N) (m : jsstring) :
  trim s = c :: m ->
  isWhiteSpace c = false /\ isWhiteSpace (last (c :: m) 0%N) = false.
Proof.
  unfold trim, trimEnd. intros H.
  destruct (trimStart_split (rev (trimStart s))) as [ws [Hsplit Hws]].
  destruct (trimStart (rev (trimStart s))) as [|e u] eqn:Hu;
    [discriminate|].
  pose proof (trimStart_head _ Hu) as He.
  split.
  - apply (f_equal (@rev N)) in Hsplit.
    rewrite rev_involutive, rev_app_distr, H in Hsplit.
    destruct (trimStart s) as [|h t] eqn:Ht; [discriminate|].
    simpl in Hsplit. injection Hsplit as -> _.
    exact (trimStart_head _ Ht).
  - rewrite <- H. simpl rev. rewrite last_last. exact He.
Qed.

(** X12.  [handleSend] does nothing at all — no state change, no request —
    when the input is blank (only white space or line terminators), when
    there is no conversation, or when there is no session. *)
Theorem handleSend_guard (env : Chat.Env) (st : Chat.State) :
  forallb isWhiteSpace (Chat.input st) = true
  \/ Chat.conversationId st = None
  \/ Chat.conversationId st = Some []
  \/ Chat.session st = None ->
  Chat.handleSend env st = (st, []).
Proof.
  unfold Chat.handleSend. intros [H|[H|[H|H]]].
  - now rewrite (trim_blank _ H).
  - rewrite H. simpl. now destruct (trim (Chat.input st)).
  - rewrite H. simpl. now destruct (trim (Chat.input st)).
  - rewrite H. destruct (trim (Chat.input st));
      [reflexivity|now destruct (Chat.usable _)].
Qed.

(** A blank input, through [handleSend_guard]. *)
Lemma handleSend_guard_witness :
  Chat.handleSend sampleChatEnv blankChatState = (blankChatState, []).
Proof.
  apply (handleSend_guard sampleChatEnv blankChatState).
  left. vm_compute. reflexivity.
Defined.

(** X13.  Whatever [handleSend] passes to the function is an object whose
    [message] is the trimmed input, a non-empty string without white space
    at either end, and the function never answers it with the 400 of the
    required-field check: the status is 200 or 500. *)
Theorem handleSend_sends_trimmed (E : JsEngine) (w : World)
  (env : Chat.Env) (st : Chat.State) (payload : Json) :
  In (Chat.CallInvoke payload) (snd (Chat.handleSend env st)) ->
  exists c m user,
    trim (Chat.input st) = c :: m
    /\ isWhiteSpace c = false
    /\ isWhiteSpace (last (c :: m) 0%N) = false
    /\ Chat.session st = Some user
    /\ payload = JObj [(js "message", JStr (c :: m));
                       (js "userId", JStr user)]
    /\ (status (fst (serve w (postRequest payload))) = 200%N
        \/ status (fst (serve w (postRequest payload))) = 500%N).
Proof.
  unfold Chat.handleSend.
  destruct (trim (Chat.input st)) as [|c m] eqn:Ht; [intros []|].
  destruct (Chat.usable (Chat.conversationId st)) as [conv|]; [|intros []].
  destruct (Chat.session st) as [user|]; [|intros []].
  intros Hin.
  assert (Hp : payload = JObj [(js "message", JStr (c :: m));
                               (js "userId", JStr user)]).
  { cbv zeta in Hin. unfold Chat.trySend in Hin.
    repeat match type of Hin with
           | context [match ?x with _ => _ end] =>
               match x with
               | context [match _ with _ => _ end] => fail 1
               | _ => destruct x
               end
           end;
      cbn [snd app In] in Hin;
      repeat (destruct Hin as [Hin|Hin]; try discriminate;
              try contradiction);
      try (injection Hin as <-; reflexivity). }
  destruct (trim_ends _ Ht) as [Hc Hl].
  exists c, m, user. repeat split; try assumption.
  subst payload.
  rewrite serve_not_preflight by (vm_compute; discriminate).
  assert (Hf : messageField (JObj [(js "message", JStr (c :: m));
                                   (js "userId", JStr user)])
               = Some (JStr (c :: m))).
  { unfold messageField. cbn [getProperty].
    replace (jsstring_eqb (js "userId") (js "message")) with false
      by (vm_compute; reflexivity).
    now rewrite jsstring_eqb_refl. }
  rewrite (@tryBlock_accepted E w
             (postRequest (JObj [(js "message", JStr (c :: m));
                                 (js "userId", JStr user)]))
             (JObj [(js "message", JStr (c :: m));
                    (js "userId", JStr user)]) eq_refl)
    by (rewrite Hf; reflexivity).
  rewrite Hf.
  destruct (createClient w) as [client|e]; [|right; reflexivity].
  destruct (generateResponse _ _ _ _) as [[text|e] t'];
    [left|right]; reflexivity.
Qed.

(** The sample page, through [handleSend_sends_trimmed]. *)
Lemma handleSend_sends_trimmed_witness :
  exists c m user,
    trim (Chat.input sampleChatState) = c :: m
    /\ isWhiteSpace c = false
    /\ isWhiteSpace (last (c :: m) 0%N) = false
    /\ Chat.session sampleChatState = Some user
    /\ JObj [(js "message", JStr (js "hello"));
             (js "userId", JStr (js "user-1"))]
       = JObj [(js "message", JStr (c :: m)); (js "userId", JStr user)]
    /\ (status (fst (@serve asciiEngine sampleWorld
                       (postRequest
                          (JObj [(js "message", JStr (js "hello"));
                                 (js "userId", JStr (js "user-1"))]))))
        = 200%N
        \/ status (fst (@serve asciiEngine sampleWorld
                          (postRequest
                             (JObj [(js "message", JStr (js "hello"));
                                    (js "userId", JStr (js "user-1"))]))))
           = 500%N).
Proof.
  apply (@handleSend_sends_trimmed asciiEngine sampleWorld sampleChatEnv
           sampleChatState).
  vm_compute. tauto.
Defined.

(** X14.  When the guard passes, [handleSend] always ends with the input
    cleared and [loading] reset, whatever is thrown on the way; the user's
    trimmed message is appended to the list at once, followed by at most
    the saved answer; and the first request made is the insertion of the
    user's message into the conversation. *)
Theorem handleSend_finally (env : Chat.Env) (st : Chat.State) (c : N)
  (m conversation user : jsstring) :
  trim (Chat.input st) = c :: m ->
  Chat.usable (Chat.conversationId st) = Some conversation ->
  Chat.session st = Some user ->
  Chat.loading (fst (Chat.handleSend env st)) = false
  /\ Chat.input (fst (Chat.handleSend env st)) = []
  /\ Chat.session (fst (Chat.handleSend env st)) = Chat.session st
  /\ Chat.conversationId (fst (Chat.handleSend env st))
     = Chat.conversationId st
  /\ (exists rest,
        Chat.messages (fst (Chat.handleSend env st))
        = Chat.messages st
            ++ {| Chat.id := Chat.randomUUID env;
                  Chat.role := js "user";
                  Chat.content := c :: m;
                  Chat.intent := None;
                  Chat.created_at := Chat.nowISOString env |} :: rest
        /\ length rest <= 1)
  /\ (exists later,
        snd (Chat.handleSend env st)
        = Chat.CallInsertUser conversation (c :: m) :: later).
Proof.
  intros Ht Hc Hs. unfold Chat.handleSend. rewrite Ht, Hc, Hs.
  cbv zeta. unfold Chat.trySend.
  repeat match goal with
         | |- context [match ?x with _ => _ end] =>
             match x with
             | context [match _ with _ => _ end] => fail 1
             | _ => destruct x
             end
         end;
    cbn [fst snd Chat.loading Chat.input Chat.session Chat.conversationId
         Chat.messages Chat.setLoading Chat.setMessages Chat.setInput app];
    repeat split; try exact Hs;
    try (exists []; split; [reflexivity|simpl; lia]);
    try (eexists; reflexivity);
    try (eexists; split; [rewrite <- app_assoc; reflexivity|simpl; lia]).
Qed.


(** The sample page, through [handleSend_finally]. *)
Lemma handleSend_finally_witness :
  Chat.loading (fst (Chat.handleSend sampleChatEnv sampleChatState)) = false
  /\ Chat.input (fst (Chat.handleSend sampleChatEnv sampleChatState)) = []
  /\ Chat.session (fst (Chat.handleSend sampleChatEnv sampleChatState))
     = Chat.session sampleChatState
  /\ Chat.conversationId (fst (Chat.handleSend sampleChatEnv sampleChatState))
     = Chat.conversationId sampleChatState
  /\ (exists rest,
        Chat.messages (fst (Chat.handleSend sampleChatEnv sampleChatState))
        = Chat.messages sampleChatState
            ++ {| Chat.id := Chat.randomUUID sampleChatEnv;
                  Chat.role := js "user";
                  Chat.content := js "hello";
                  Chat.intent := None;
                  Chat.created_at := Chat.nowISOString sampleChatEnv |}
               :: rest
        /\ length rest <= 1)
  /\ (exists later,
        snd (Chat.handleSend sampleChatEnv sampleChatState)
        = Chat.CallInsertUser (js "conv-1") (js "hello") :: later).
Proof.
  apply (@handleSend_finally sampleChatEnv sampleChatState 104%N
           (js "ello") (js "conv-1") (js "user-1"));
    vm_compute; reflexivity.
Defined.

(** The function's answer to the body the page sends. *)
Lemma serve_chat_payload (E : JsEngine) (w : World) (s user : jsstring) :
  s <> [] ->
  serve w (postRequest (JObj [(js "message", JStr s);
                              (js "userId", JStr user)])) =
  match createClient w with
  | Throw e => (catchBlock e, [EvCreateClient; EvError e])
  | Ok supabaseClient =>
      match generateResponse (detectIntent s) s supabaseClient
              [EvCreateClient;
               EvLog (js "Detected intent: " ++ detectIntent s
                        ++ js " for message: " ++ s)] with
      | (Ok response, t) => (okResponse (detectIntent s) response, t)
      | (Throw e, t) => (catchBlock e, t ++ [EvError e])
      end
  end.
Proof.
  intros Hs.
  rewrite serve_not_preflight by (vm_compute; discriminate).
  assert (Hf : messageField (JObj [(js "message", JStr s);
                                   (js "userId", JStr user)])
               = Some (JStr s)).
  { unfold messageField. cbn [getProperty].
    replace (jsstring_eqb (js "userId") (js "message")) with false
      by (vm_compute; reflexivity).
    now rewrite jsstring_eqb_refl. }
  rewrite (@tryBlock_accepted E w
             (postRequest (JObj [(js "message", JStr s);
                                 (js "userId", JStr user)]))
             (JObj [(js "message", JStr s); (js "userId", JStr user)])
             eq_refl)
    by (rewrite Hf; destruct s; [contradiction|reflexivity]).
  rewrite Hf.
  destruct (createClient w) as [client|e]; [|reflexivity].
  destruct (generateResponse _ _ _ _) as [[text|e] t']; reflexivity.
Qed.

(** X15.  When the page invokes the function as deployed, the answer it
    stores has the generated text as content and the classifier's label of
    the trimmed input as intent: one of the eight labels.  The apology of a
    500 is never stored, since the page turns a status outside 2xx into a
    throw. *)
Theorem stored_answer_is_labelled (E : JsEngine) (w : World)
  (env : Chat.Env) (st : Chat.State) (conversation : jsstring)
  (content intent : option Json) :
  Chat.invoke env = invokeChatIntent w ->
  In (Chat.CallInsertAssistant conversation content intent)
     (snd (Chat.handleSend env st)) ->
  exists supabaseClient text t,
    createClient w = Ok supabaseClient
    /\ generateResponse (detectIntent (trim (Chat.input st)))
         (trim (Chat.input st)) supabaseClient
         [EvCreateClient;
          EvLog (js "Detected intent: "
                   ++ detectIntent (trim (Chat.input st))
                   ++ js " for message: " ++ trim (Chat.input st))]
       = (Ok text, t)
    /\ content = Some (JStr text)
    /\ intent = Some (JStr (detectIntent (trim (Chat.input st))))
    /\ In (detectIntent (trim (Chat.input st))) intentLabels.
Proof.
  intros Hinv. unfold Chat.handleSend.
  destruct (trim (Chat.input st)) as [|c m] eqn:Ht; [intros []|].
  destruct (Chat.usable (Chat.conversationId st)) as [conv|]; [|intros []].
  destruct (Chat.session st) as [user|]; [|intros []].
  cbv zeta. unfold Chat.trySend. rewrite Hinv. unfold invokeChatIntent.
  rewrite serve_chat_payload by discriminate.
  destruct (Chat.insertUserMessage env conv (c :: m)) as [u|e0].
  2:{ cbn [snd app In]. intros Hin.
      repeat (destruct Hin as [Hin|Hin]; try discriminate;
              try contradiction). }
  destruct (createClient w) as [client|e].
  2:{ cbn [fst status catchBlock]. cbn. intros Hin.
      repeat (destruct Hin as [Hin|Hin]; try discriminate;
              try contradiction). }
  destruct (generateResponse _ _ _ _) as [[text|e] t'] eqn:Hg.
  2:{ cbn [fst status catchBlock]. cbn. intros Hin.
      repeat (destruct Hin as [Hin|Hin]; try discriminate;
              try contradiction). }
  cbn [fst status okResponse body].
  change (N.leb 200 200 && N.ltb 200 300) with true. cbv iota.
  cbn [Chat.error Chat.data].
  assert (Hr : Chat.field (js "response")
                 (JObj [(js "intent", JStr (detectIntent (c :: m)));
                        (js "response", JStr text)]) = Some (JStr text)).
  { unfold Chat.field. cbn [getProperty].
    now rewrite jsstring_eqb_refl. }
  assert (Hi : Chat.field (js "intent")
                 (JObj [(js "intent", JStr (detectIntent (c :: m)));
                        (js "response", JStr text)])
               = Some (JStr (detectIntent (c :: m)))).
  { unfold Chat.field. cbn [getProperty].
    replace (jsstring_eqb (js "response") (js "intent")) with false
      by (vm_compute; reflexivity).
    now rewrite jsstring_eqb_refl. }
  rewrite Hr, Hi. intros Hin.
  assert (Hev : Chat.CallInsertAssistant conversation content intent
                = Chat.CallInsertAssistant conv (Some (JStr text))
                    (Some (JStr (detectIntent (c :: m))))).
  { destruct (Chat.insertAssistantMessage env conv _ _) as [[saved|]|e];
      cbn [snd app In] in Hin;
      repeat (destruct Hin as [Hin|Hin]; try discriminate;
              try contradiction);
      symmetry; exact Hin. }
  injection Hev as _ -> ->.
  exists client, text, t'. repeat split; try assumption.
  apply detectIntent_label.
Qed.

(** The sample page, through [stored_answer_is_labelled]. *)
Lemma stored_answer_is_labelled_witness :
  exists supabaseClient text t,
    createClient sampleWorld = Ok supabaseClient
    /\ @generateResponse asciiEngine
         (@detectIntent asciiEngine (trim (Chat.input sampleChatState)))
         (trim (Chat.input sampleChatState)) supabaseClient
         [EvCreateClient;
          EvLog (js "Detected intent: "
                   ++ @detectIntent asciiEngine
                        (trim (Chat.input sampleChatState))
                   ++ js " for message: "
                   ++ trim (Chat.input sampleChatState))]
       = (Ok text, t)
    /\ Some (JStr greetingText) = Some (JStr text)
    /\ Some (JStr (js "greeting"))
       = Some (JStr (@detectIntent asciiEngine
                       (trim (Chat.input sampleChatState))))
    /\ In (@detectIntent asciiEngine (trim (Chat.input sampleChatState)))
          intentLabels.
Proof.
  apply (@stored_answer_is_labelled asciiEngine sampleWorld sampleChatEnv
           sampleChatState (js "conv-1") (Some (JStr greetingText))
           (Some (JStr (js "greeting")))).
  - reflexivity.
  - vm_compute. tauto.
Defined.

(** ** The schema *)

Lemma no_admin_has_role (db : Schema.Db) (uid : option Schema.uuid) :
  Schema.no_admin db -> Schema.has_role db uid Schema.admin = false.
Proof.
  unfold Schema.no_admin, Schema.has_role. intros H.
  induction (Schema.t_user_roles db) as [|r rs IH]; [reflexivity|].
  simpl. rewrite (H r (or_introl eq_refl)). simpl.
  rewrite andb_false_r. apply IH. intros r' Hin. apply H. now right.
Qed.

Lemma handle_new_user_roles (db db' : Schema.Db) (NEW : Schema.NewUser) :
  Schema.handle_new_user db NEW = Some db' ->
  Schema.t_user_roles db'
  = Schema.t_user_roles db ++
    [{| Schema.user_roles_id := Schema.fresh_role_id NEW;
        Schema.user_id := Schema.new_id NEW;
        Schema.role := Schema.patient;
        Schema.user_roles_created_at := Schema.at_time NEW |}].
Proof.
  unfold Schema.handle_new_user.
  destruct (existsb _ (Schema.t_profiles db)); [discriminate|].
  destruct (_ || _); [discriminate|].
  intros H. injection H as <-. reflexivity.
Qed.

Lemma insert_role_needs_admin (db : Schema.Db) (uid : option Schema.uuid)
  (row : Schema.user_roles) :
  Schema.allowed_new Schema.user_roles_policies Schema.INSERT db uid row
  = Schema.has_role db uid Schema.admin.
Proof.
  unfold Schema.allowed_new, Schema.user_roles_policies.
  cbn -[Schema.has_role]. apply orb_false_r.
Qed.

Lemma step_no_admin (db : Schema.Db) (r : Schema.Request) :
  Schema.no_admin db -> Schema.no_admin (Schema.step db r).
Proof.
  intros H. destruct r as [NEW|uid row|uid old new|uid row];
    cbn [Schema.step].
  - destruct (Schema.handle_new_user db NEW) as [db'|] eqn:Hn; [|exact H].
    intros r Hin. rewrite (handle_new_user_roles _ _ Hn) in Hin.
    apply in_app_iff in Hin as [Hin|[<-|[]]]; [now apply H|reflexivity].
  - rewrite insert_role_needs_admin, (no_admin_has_role uid H).
    exact H.
  - replace (Schema.allowed_on Schema.user_roles_policies Schema.UPDATE
               db uid old) with false by reflexivity.
    exact H.
  - replace (Schema.allowed_on Schema.user_roles_policies Schema.DELETE
               db uid row) with false by reflexivity.
    exact H.
Qed.

(** X16.  The policies offer no way to a first admin: when no row of
    [user_roles] gives the admin role, no sequence of signups and of
    inserts, updates and deletes of roles by any users creates one, and
    [has_role] stays false for the admin role. *)
Theorem no_first_admin (db : Schema.Db) (requests : list Schema.Request)
  (uid : option Schema.uuid) :
  Schema.no_admin db ->
  Schema.no_admin (Schema.run db requests)
  /\ Schema.has_role (Schema.run db requests) uid Schema.admin = false.
Proof.
  intros H.
  assert (Hrun : Schema.no_admin (Schema.run db requests)).
  { unfold Schema.run. revert db H.
    induction requests as [|r rs IH]; intros db H; simpl; [exact H|].
    apply IH. now apply step_no_admin. }
  split; [exact Hrun|]. now apply no_admin_has_role.
Qed.

(** A signup followed by a grab for the admin role, through
    [no_first_admin]. *)
Lemma no_first_admin_witness :
  Schema.has_role (Schema.run emptyDb sampleRequests) (Some 7%N)
    Schema.admin = false.
Proof.
  apply (proj2 (@no_first_admin emptyDb sampleRequests (Some 7%N)
                  (fun r (H : In r []) => match H with end))).
Defined.

(** X17.  The signup trigger gives the new user a profile, named as the
    signup says or "User" when it gives no name, and the patient role; it
    changes nobody's admin role and no role of any other user. *)
Theorem signup_gives_patient (db db' : Schema.Db) (NEW : Schema.NewUser) :
  Schema.handle_new_user db NEW = Some db' ->
  Schema.has_role db' (Some (Schema.new_id NEW)) Schema.patient = true
  /\ (forall uid, Schema.has_role db' uid Schema.admin
                  = Schema.has_role db uid Schema.admin)
  /\ (forall u r, u <> Schema.new_id NEW ->
                  Schema.has_role db' (Some u) r
                  = Schema.has_role db (Some u) r)
  /\ In {| Schema.profiles_id := Schema.new_id NEW;
           Schema.full_name := match Schema.raw_full_name NEW with
                               | Some n => n
                               | None => js "User"
                               end;
           Schema.phone := None;
           Schema.date_of_birth := None;
           Schema.profiles_created_at := Schema.at_time NEW |}
        (Schema.t_profiles db').
Proof.
  intros Hn. pose proof (handle_new_user_roles _ _ Hn) as Hr.
  unfold Schema.has_role. rewrite Hr.
  split; [|split; [|split]].
  - rewrite existsb_app. simpl. rewrite N.eqb_refl. simpl.
    apply orb_true_r.
  - intros uid. rewrite existsb_app. simpl.
    rewrite andb_false_r. simpl. apply orb_false_r.
  - intros u r Hne. rewrite existsb_app. simpl.
    apply N.eqb_neq in Hne. rewrite Hne. simpl. apply orb_false_r.
  - revert Hn. unfold Schema.handle_new_user.
    destruct (existsb _ (Schema.t_profiles db)); [discriminate|].
    destruct (_ || _); [discriminate|].
    intros H. injection H as <-. simpl. apply in_app_iff. right. now left.
Qed.

(** A signup without a name, through [signup_gives_patient]. *)
Lemma signup_gives_patient_witness :
  Schema.has_role (Schema.run emptyDb [Schema.SignUp sampleNewUser])
    (Some (Schema.new_id sampleNewUser)) Schema.patient = true.
Proof.
  apply (proj1 (@signup_gives_patient emptyDb
                  (Schema.run emptyDb [Schema.SignUp sampleNewUser])
                  sampleNewUser eq_refl)).
Defined.

Lemma has_role_anonymous (db : Schema.Db) (r : Schema.app_role) :
  Schema.has_role db None r = false.
Proof.
  unfold Schema.has_role.
  induction (Schema.t_user_roles db) as [|x xs IH]; [reflexivity|].
  simpl. exact IH.
Qed.

Lemma in_own_conversation_anonymous (db : Schema.Db) (m : Schema.messages) :
  Schema.in_own_conversation db None m = false.
Proof.
  unfold Schema.in_own_conversation.
  induction (Schema.t_conversations db) as [|x xs IH]; [reflexivity|].
  simpl. rewrite andb_false_r. exact IH.
Qed.

(** Evaluating a list of policies down to its expressions. *)
Ltac policies :=
  unfold Schema.allowed_on, Schema.allowed_new,
    Schema.profiles_policies, Schema.user_roles_policies,
    Schema.doctors_policies, Schema.appointments_policies,
    Schema.conversations_policies, Schema.messages_policies;
  cbn -[Schema.has_role Schema.in_own_conversation Schema.uid_is];
  repeat match goal with
         | |- context [Schema.uid_is ?u ?x] => destruct (Schema.uid_is u x)
         | |- context [Schema.has_role ?d ?u ?r] =>
             destruct (Schema.has_role d u r)
         | |- context [Schema.in_own_conversation ?d ?u ?m] =>
             destruct (Schema.in_own_conversation d u m)
         end;
  try reflexivity.

(** X18.  What may be read.  A profile is readable by its owner only, an
    admin included; an appointment, a conversation, a role row by its owner
    or an admin; a message by the owner of its conversation or an admin;
    a doctor by everyone.  A request without a user reads doctors and
    nothing else. *)
Theorem read_policies (db : Schema.Db) (uid : option Schema.uuid) :
  (forall p, Schema.allowed_on Schema.profiles_policies Schema.SELECT
               db uid p
             = Schema.uid_is uid (Schema.profiles_id p))
  /\ (forall a, Schema.allowed_on Schema.appointments_policies Schema.SELECT
                  db uid a
                = Schema.uid_is uid (Schema.patient_id a)
                  || Schema.has_role db uid Schema.admin)
  /\ (forall c, Schema.allowed_on Schema.conversations_policies
                  Schema.SELECT db uid c
                = Schema.uid_is uid (Schema.conversations_user_id c)
                  || Schema.has_role db uid Schema.admin)
  /\ (forall r, Schema.allowed_on Schema.user_roles_policies Schema.SELECT
                  db uid r
                = Schema.uid_is uid (Schema.user_id r)
                  || Schema.has_role db uid Schema.admin)
  /\ (forall m, Schema.allowed_on Schema.messages_policies Schema.SELECT
                  db uid m
                = Schema.in_own_conversation db uid m
                  || Schema.has_role db uid Schema.admin)
  /\ (forall d, Schema.allowed_on Schema.doctors_policies Schema.SELECT
                  db uid d = true)
  /\ (forall p a c r m,
        Schema.allowed_on Schema.profiles_policies Schema.SELECT db None p
        = false
        /\ Schema.allowed_on Schema.appointments_policies Schema.SELECT
             db None a = false
        /\ Schema.allowed_on Schema.conversations_policies Schema.SELECT
             db None c = false
        /\ Schema.allowed_on Schema.user_roles_policies Schema.SELECT
             db None r = false
        /\ Schema.allowed_on Schema.messages_policies Schema.SELECT
             db None m = false).
Proof.
  split; [|split; [|split; [|split; [|split; [|split]]]]]; intros.
  - policies.
  - policies.
  - policies.
  - policies.
  - policies.
  - policies.
  - unfold Schema.allowed_on, Schema.profiles_policies,
      Schema.user_roles_policies, Schema.appointments_policies,
      Schema.conversations_policies, Schema.messages_policies.
    cbn -[Schema.has_role Schema.in_own_conversation].
    rewrite has_role_anonymous, in_own_conversation_anonymous.
    repeat split.
Qed.

(** X19.  What may be written.  Nothing deletes a profile, a role, an
    appointment, a conversation or a message, and nothing updates a message
    or a role; a doctor is inserted, updated or deleted by an admin only.
    An appointment or a conversation is created only in one's own name, a
    message only in one's own conversation, admins included; a role is
    inserted by an admin only.  An appointment is updated by its patient or
    an admin, and the updated row must again pass: a patient cannot hand an
    appointment to someone else. *)
Theorem write_policies (db : Schema.Db) (uid : option Schema.uuid) :
  (forall p a c r m,
     Schema.allowed_on Schema.profiles_policies Schema.DELETE db uid p
     = false
     /\ Schema.allowed_on Schema.appointments_policies Schema.DELETE
          db uid a = false
     /\ Schema.allowed_on Schema.conversations_policies Schema.DELETE
          db uid c = false
     /\ Schema.allowed_on Schema.user_roles_policies Schema.DELETE
          db uid r = false
     /\ Schema.allowed_on Schema.messages_policies Schema.DELETE
          db uid m = false
     /\ Schema.allowed_on Schema.messages_policies Schema.UPDATE
          db uid m = false
     /\ Schema.allowed_on Schema.user_roles_policies Schema.UPDATE
          db uid r = false)
  /\ (forall d,
        Schema.allowed_new Schema.doctors_policies Schema.INSERT db uid d
        = Schema.has_role db uid Schema.admin
        /\ Schema.allowed_on Schema.doctors_policies Schema.UPDATE db uid d
           = Schema.has_role db uid Schema.admin
        /\ Schema.allowed_new Schema.doctors_policies Schema.UPDATE
             db uid d = Schema.has_role db uid Schema.admin
        /\ Schema.allowed_on Schema.doctors_policies Schema.DELETE db uid d
           = Schema.has_role db uid Schema.admin)
  /\ (forall a, Schema.allowed_new Schema.appointments_policies
                  Schema.INSERT db uid a
                = Schema.uid_is uid (Schema.patient_id a))
  /\ (forall c, Schema.allowed_new Schema.conversations_policies
                  Schema.INSERT db uid c
                = Schema.uid_is uid (Schema.conversations_user_id c))
  /\ (forall m, Schema.allowed_new Schema.messages_policies Schema.INSERT
                  db uid m
                = Schema.in_own_conversation db uid m)
  /\ (forall r, Schema.allowed_new Schema.user_roles_policies Schema.INSERT
                  db uid r
                = Schema.has_role db uid Schema.admin)
  /\ (forall old new,
        Schema.has_role db uid Schema.admin = false ->
        Schema.allowed_on Schema.appointments_policies Schema.UPDATE
          db uid old
        && Schema.allowed_new Schema.appointments_policies Schema.UPDATE
             db uid new
        = Schema.uid_is uid (Schema.patient_id old)
          && Schema.uid_is uid (Schema.patient_id new)).
Proof.
  split; [|split; [|split; [|split; [|split; [|split]]]]]; intros.
  - repeat split; reflexivity.
  - repeat split; policies.
  - policies.
  - policies.
  - policies.
  - policies.
  - unfold Schema.allowed_on, Schema.allowed_new,
      Schema.appointments_policies.
    cbn -[Schema.has_role Schema.uid_is]. rewrite H.
    destruct (Schema.uid_is uid (Schema.patient_id old)),
      (Schema.uid_is uid (Schema.patient_id new)); reflexivity.
Qed.

(** ** The seeded directory *)

Lemma bookEntry_title (k : nat) (doc : Doctor) (rest : jsstring) :
  name doc = js "Dr. " ++ rest ->
  occursIn (js "Dr. Dr. ") (bookEntry k doc).
Proof.
  intros H. unfold bookEntry. rewrite H.
  exists (numToString (Z.of_nat k) ++ js ". "),
    (rest ++ js " - " ++ specialty doc ++ js "\n"
       ++ js "   Available: " ++ join (js ", ") (days doc) ++ js "\n"
       ++ js "   Hours: " ++ numToString (start_hour doc) ++ js ":00 - "
       ++ numToString (end_hour doc) ++ js ":00\n\n").
  change (js ". Dr. ") with (js ". " ++ js "Dr. ").
  change (js "Dr. Dr. ") with (js "Dr. " ++ js "Dr. ").
  repeat rewrite <- app_assoc. reflexivity.
Qed.

Lemma searchEntry_title (doc : Doctor) (rest : jsstring) :
  name doc = js "Dr. " ++ rest ->
  occursIn (js "Dr. Dr. ") (searchEntry doc).
Proof.
  intros H. unfold searchEntry. rewrite H.
  exists (js "• "),
    (rest ++ js " - " ++ specialty doc ++ js "\n"
       ++ js "  Available: " ++ join (js ", ") (days doc) ++ js "\n"
       ++ js "  Hours: " ++ numToString (start_hour doc) ++ js ":00 - "
       ++ numToString (end_hour doc) ++ js ":00\n\n").
  change (js "• Dr. ") with (js "• " ++ js "Dr. ").
  change (js "Dr. Dr. ") with (js "Dr. " ++ js "Dr. ").
  repeat rewrite <- app_assoc. reflexivity.
Qed.

(** X20.  The seeded doctors pass the CHECK constraints of their table and
    open before they close; their names carry the title "Dr.", which both
    listings add again, so every entry of a seeded doctor reads
    "Dr. Dr. ...". *)
Theorem seeded_directory (doc : Doctor) (k : nat) :
  In doc seedDoctors ->
  doctors_check doc = true
  /\ (start_hour doc < end_hour doc)%Z
  /\ startsWith (name doc) (js "Dr. ") = true
  /\ occursIn (js "Dr. Dr. ") (bookEntry k doc)
  /\ occursIn (js "Dr. Dr. ") (searchEntry doc).
Proof.
  intros Hin.
  assert (Hs : startsWith (name doc) (js "Dr. ") = true).
  { unfold seedDoctors in Hin. cbn [In] in Hin.
    repeat (destruct Hin as [<-|Hin]; [vm_compute; reflexivity|]).
    contradiction. }
  assert (Hc : doctors_check doc = true
               /\ (start_hour doc < end_hour doc)%Z).
  { unfold seedDoctors in Hin. cbn [In] in Hin.
    repeat (destruct Hin as [<-|Hin];
            [split; [reflexivity|reflexivity]|]).
    contradiction. }
  destruct Hc as [Hc Hlt].
  apply startsWith_prefix in Hs as [rest Hs].
  repeat split; try assumption.
  - apply startsWith_prefix. eauto.
  - apply (bookEntry_title k doc Hs).
  - apply (searchEntry_title doc Hs).
Qed.

(** The first seeded doctor, through [seeded_directory]. *)
Lemma seeded_directory_witness :
  occursIn (js "Dr. Dr. ")
    (bookEntry 1
       {| name := js "Dr. Sarah Johnson"; specialty := js "Cardiology";
          days := [js "Monday"; js "Tuesday"; js "Wednesday";
                   js "Thursday"; js "Friday"];
          start_hour := 9; end_hour := 17 |}).
Proof.
  apply (@seeded_directory
           {| name := js "Dr. Sarah Johnson"; specialty := js "Cardiology";
              days := [js "Monday"; js "Tuesday"; js "Wednesday";
                       js "Thursday"; js "Friday"];
              start_hour := 9; end_hour := 17 |} 1).
  left. reflexivity.
Defined.

(** ** The admin page *)

Lemma app_role_eqb_eq (a b : Schema.app_role) :
  Schema.app_role_eqb a b = true <-> a = b.
Proof. destruct a, b; simpl; split; congruence. Qed.

Lemma admin_rows (userId : Schema.uuid) (rows : list Schema.user_roles) :
  NoDup (map (fun r => (Schema.user_id r, Schema.role r)) rows) ->
  match filter (fun r => Schema.app_role_eqb (Schema.role r) Schema.admin)
          (filter (fun r => N.eqb (Schema.user_id r) userId) rows) with
  | [] => existsb (fun r => N.eqb userId (Schema.user_id r)
                            && Schema.app_role_eqb (Schema.role r)
                                 Schema.admin) rows = false
  | [_] => existsb (fun r => N.eqb userId (Schema.user_id r)
                             && Schema.app_role_eqb (Schema.role r)
                                  Schema.admin) rows = true
  | _ :: _ :: _ => False
  end.
Proof.
  induction rows as [|r rows IH]; intros Hnd; [reflexivity|].
  inversion Hnd as [|k ks Hnotin Hnd']; subst.
  specialize (IH Hnd'). cbn [filter existsb].
  rewrite (N.eqb_sym userId (Schema.user_id r)).
  destruct (N.eqb (Schema.user_id r) userId) eqn:Hu; cbn [andb orb];
    [|exact IH].
  cbn [filter].
  destruct (Schema.app_role_eqb (Schema.role r) Schema.admin) eqn:Hr;
    cbn [orb]; [|exact IH].
  apply N.eqb_eq in Hu. apply app_role_eqb_eq in Hr.
  destruct (filter _ (filter _ rows)) as [|r' rest] eqn:Hf; [reflexivity|].
  exfalso. apply Hnotin.
  assert (Hin : In r' (filter (fun r0 => Schema.app_role_eqb
                                           (Schema.role r0) Schema.admin)
                         (filter (fun r0 => N.eqb (Schema.user_id r0) userId)
                            rows)))
    by (rewrite Hf; now left).
  apply filter_In in Hin as [Hin Hr'].
  apply filter_In in Hin as [Hin Hu'].
  apply N.eqb_eq in Hu'. apply app_role_eqb_eq in Hr'.
  apply in_map_iff. exists r'. split; [|exact Hin]. congruence.
Qed.

Lemma visible_own_rows (db : Schema.Db) (userId : Schema.uuid) :
  filter (fun r => N.eqb (Schema.user_id r) userId) (visibleRoles db userId)
  = filter (fun r => N.eqb (Schema.user_id r) userId)
      (Schema.t_user_roles db).
Proof.
  unfold visibleRoles.
  induction (Schema.t_user_roles db) as [|r rows IH]; [reflexivity|].
  cbn [filter].
  destruct (N.eqb (Schema.user_id r) userId) eqn:Hu.
  - replace (Schema.allowed_on Schema.user_roles_policies Schema.SELECT db
               (Some userId) r) with true.
    + cbn [filter]. rewrite Hu, IH. reflexivity.
    + unfold Schema.allowed_on, Schema.user_roles_policies.
      cbn -[Schema.has_role]. rewrite N.eqb_sym, Hu. reflexivity.
  - destruct (Schema.allowed_on _ _ _ _ r); [|exact IH].
    cbn [filter]. rewrite Hu. exact IH.
Qed.

(** X21.  The admin page and the schema agree: under the uniqueness of
    (user_id, role), [checkAdminAccess] loads the data exactly when
    [has_role] gives the signed-in user the admin role; the row policies do
    not hide a user's own admin row, and no other row can stand in for
    it. *)
Theorem checkAdminAccess_is_has_role (db : Schema.Db)
  (userId : Schema.uuid) :
  unique_roles db ->
  checkAdminAccess db userId
  = Schema.has_role db (Some userId) Schema.admin.
Proof.
  intros Hu. unfold checkAdminAccess, Schema.has_role.
  rewrite visible_own_rows.
  pose proof (@admin_rows userId (Schema.t_user_roles db) Hu) as H.
  cbn [Schema.uid_is].
  destruct (filter _ (filter _ (Schema.t_user_roles db))) as [|r [|r' rest]];
    cbn [single]; [now rewrite H|now rewrite H|contradiction].
Qed.

(** A patient after signup, through [checkAdminAccess_is_has_role]. *)
Lemma checkAdminAccess_is_has_role_witness :
  checkAdminAccess (Schema.run emptyDb sampleRequests) 7%N
  = Schema.has_role (Schema.run emptyDb sampleRequests) (Some 7%N)
      Schema.admin.
Proof.
  apply (@checkAdminAccess_is_has_role (Schema.run emptyDb sampleRequests)
           7%N).
  unfold unique_roles. vm_compute. repeat constructor. intros [].
Defined.
